(** * LOA-app: the letter session, the prompt builder and the layout renderer

    A shallow embedding of [src/app.py] (the Streamlit variant) and
    [src/main.py] (the command-line variant) of the Letter-of-Authorization
    generator, with the properties the specification states about them.

    Conventions of the embedding.
    - Python [str] values are [string]s; a character is a code point below
      256, so [str.strip], [str.lower] and friends are modelled on that range.
    - A parameter dictionary is a [gmap string Value]; a value is text or a
      calendar date, the two kinds the data model of the specification names.
    - A python-docx run is the list of its pieces of text, tabs and line
      breaks; [add_run] fails on a control character, as the XML layer does.
    - The chat-completion endpoint and the clock are inputs of every
      operation (record [Env]); an operation returns what the caller observes
      ([outcome]), the state of the generator afterwards ([after]) and the
      requests that went out to the endpoint ([sent]). *)

From Stdlib Require Import Ascii String List Arith Bool Lia DecimalString.
From stdpp Require Import gmap strings list.
Import ListNotations.

(** ** Python string primitives *)

Module Py.

Definition LF : string := String "010"%char "".

(** [str.isspace] on one code point below 256: tab, line feed, vertical tab,
    form feed, carriage return, the four separators 28..31, space, next-line
    (133) and the no-break space (160). *)
Definition isspace (c : ascii) : bool :=
  let n := nat_of_ascii c in
  ((9 <=? n) && (n <=? 13)) || ((28 <=? n) && (n <=? 32))
  || (n =? 133) || (n =? 160).

(** [str.lower] on one code point below 256: A..Z and the accented capitals
    192..222 (the multiplication sign 215 apart) move up by 32. *)
Definition lower_char (c : ascii) : ascii :=
  let n := nat_of_ascii c in
  if ((65 <=? n) && (n <=? 90))
     || ((192 <=? n) && (n <=? 222) && negb (n =? 215))
  then ascii_of_nat (n + 32) else c.

Fixpoint lower (s : string) : string :=
  match s with
  | EmptyString => EmptyString
  | String c s' => String (lower_char c) (lower s')
  end.

Fixpoint lstrip (s : string) : string :=
  match s with
  | EmptyString => EmptyString
  | String c s' => if isspace c then lstrip s' else s
  end.

Fixpoint rstrip (s : string) : string :=
  match s with
  | EmptyString => EmptyString
  | String c s' =>
      match rstrip s' with
      | EmptyString => if isspace c then EmptyString else String c EmptyString
      | r => String c r
      end
  end.

Definition strip (s : string) : string := rstrip (lstrip s).

(** [s.split(sep)] for a one-character separator: never the empty list. *)
Fixpoint split (sep : ascii) (s : string) : list string :=
  match s with
  | EmptyString => [EmptyString]
  | String c s' =>
      if Ascii.eqb c sep then EmptyString :: split sep s'
      else match split sep s' with
           | [] => [String c EmptyString]
           | w :: ws => String c w :: ws
           end
  end.

Definition startswith (s p : string) : bool := String.prefix p s.

Definition endswith (s p : string) : bool :=
  let n := String.length s in
  let k := String.length p in
  (k <=? n) && String.eqb (String.substring (n - k) k s) p.

(** [sep.join(parts)] *)
Definition join (sep : string) (parts : list string) : string :=
  String.concat sep parts.

(** Truth value of a [str]: the empty string is false. *)
Definition truthy (s : string) : bool :=
  match s with EmptyString => false | _ => true end.

End Py.

(** ** Layout renderer: [create_word_document] of [src/app.py] *)

Module Layout.

Inductive Role : Type :=
  | reference_or_date | subject | salutation | closing
  | section_header | body | blank.

Inductive Alignment : Type := LEFT | RIGHT.

(** A python-docx run as [add_run] fills it: pieces of text, with a tab
    element for each tab character and a line-break element for each carriage
    return or line feed of the text. *)
Inductive RunItem : Type :=
  | Text (s : string)
  | Tab
  | LineBreak.

(** A python-docx paragraph as far as the function touches it: the alignment
    set on it, if any, and its runs with their bold flag. *)
Record Run : Type := mkRun { run_items : list RunItem; run_bold : bool }.
Record Paragraph : Type :=
  mkParagraph { alignment : option Alignment; runs : list Run }.

(** A character the XML layer under python-docx refuses: a code below 32
    other than tab, line feed and carriage return. *)
Definition is_control (c : ascii) : bool :=
  let n := nat_of_ascii c in
  (n <? 32) && negb (n =? 9) && negb (n =? 10) && negb (n =? 13).

Fixpoint has_control (s : string) : bool :=
  match s with
  | EmptyString => false
  | String c s' => is_control c || has_control s'
  end.

(** The content of a run for a text: the longest pieces free of tab, carriage
    return and line feed, these three standing as elements between them. *)
Fixpoint items_of (text : string) : list RunItem :=
  match text with
  | EmptyString => []
  | String c rest =>
      let n := nat_of_ascii c in
      if n =? 9 then Tab :: items_of rest
      else if (n =? 10) || (n =? 13) then LineBreak :: items_of rest
      else match items_of rest with
           | Text t :: more => Text (String c t) :: more
           | more => Text (String c EmptyString) :: more
           end
  end.

(** [p.add_run(text)] with the bold flag then set on the run; [None] is the
    [ValueError] a control character in the text raises. *)
Definition add_run (text : string) (bold : bool) (p : Paragraph)
    : option Paragraph :=
  if has_control text then None
  else Some (mkParagraph (alignment p) (runs p ++ [mkRun (items_of text) bold])).

(** [doc.add_paragraph()] followed by what the branch does to [p]. *)
Definition empty_paragraph : Paragraph := mkParagraph None [].
Definition plain_paragraph (line : string) : option Paragraph :=
  add_run line false empty_paragraph.
Definition bold_paragraph (line : string) : option Paragraph :=
  add_run line true empty_paragraph.
Definition right_bold_paragraph (line : string) : option Paragraph :=
  add_run line true (mkParagraph (Some RIGHT) []).

Definition salutations : list string := ["dear "; "to whom"; "sir"; "madam"].
Definition closings : list string :=
  ["yours "; "sincerely"; "faithfully"; "regards"].

(** The six tests of the if/elif chain, each as the source writes it, on the
    stripped line. *)
Definition is_blank (line : string) : bool := negb (Py.truthy line).
Definition is_reference_or_date (line : string) : bool :=
  Py.startswith line "Date:"
  || Py.startswith (Py.lower line) "ref:"
  || Py.startswith (Py.lower line) "reference:".
Definition is_salutation (line : string) : bool :=
  existsb (fun s => Py.startswith (Py.lower line) s) salutations.
Definition is_subject (line : string) : bool :=
  Py.startswith (Py.lower line) "subject:".
Definition is_closing (line : string) : bool :=
  existsb (fun s => Py.startswith (Py.lower line) s) closings.
Definition is_section_header (line : string) : bool :=
  Py.endswith line ":" && (String.length line <? 50).

(** The body of the [for] loop: the line is stripped, then the first branch
    whose test holds adds one paragraph.  The role names the branch taken;
    the paragraph is missing when [add_run] raised. *)
Definition process_line (raw : string) : Role * option Paragraph :=
  let line := Py.strip raw in
  if is_blank line then (blank, Some empty_paragraph)
  else if is_reference_or_date line
       then (reference_or_date, right_bold_paragraph line)
  else if is_salutation line then (salutation, plain_paragraph line)
  else if is_subject line then (subject, bold_paragraph line)
  else if is_closing line then (closing, plain_paragraph line)
  else if is_section_header line then (section_header, bold_paragraph line)
  else (body, plain_paragraph line).

Definition classify (raw : string) : Role := fst (process_line raw).

(** [lines = loa_content.strip().split('\n')] *)
Definition lines_of (loa_content : string) : list string :=
  Py.split "010"%char (Py.strip loa_content).

(** The document: the four margins in inches and the paragraphs in order. *)
Record Document : Type := mkDocument {
  top_margin : nat; bottom_margin : nat;
  left_margin : nat; right_margin : nat;
  paragraphs : list Paragraph
}.

(** What a call gives: the document, or the [ValueError] of [add_run]. *)
Inductive DocResult : Type :=
  | Built (doc : Document)
  | ValueError.

(** The [for] loop: the lines in order, stopped by the first exception. *)
Fixpoint add_paragraphs (lines : list string) : option (list Paragraph) :=
  match lines with
  | [] => Some []
  | l :: rest =>
      match snd (process_line l) with
      | None => None
      | Some p =>
          match add_paragraphs rest with
          | None => None
          | Some ps => Some (p :: ps)
          end
      end
  end.

Definition create_word_document (loa_content : string) : DocResult :=
  match add_paragraphs (lines_of loa_content) with
  | Some ps => Built (mkDocument 1 1 1 1 ps)
  | None => ValueError
  end.

(** The classified blocks of the specification: the stripped line and the
    role of the branch that handled it. *)
Record Block : Type := mkBlock { raw_text : string; role : Role }.

Definition render (loa_content : string) : list Block :=
  map (fun l => mkBlock (Py.strip l) (classify l)) (lines_of loa_content).

(** The precedence list of the specification, rule by rule: the role [r] is
    the first match of [line] when its own test holds and no earlier one does. *)
Definition first_match (r : Role) (line : string) : bool :=
  match r with
  | blank => is_blank line
  | reference_or_date => negb (is_blank line) && is_reference_or_date line
  | salutation =>
      negb (is_blank line) && negb (is_reference_or_date line)
      && is_salutation line
  | subject =>
      negb (is_blank line) && negb (is_reference_or_date line)
      && negb (is_salutation line) && is_subject line
  | closing =>
      negb (is_blank line) && negb (is_reference_or_date line)
      && negb (is_salutation line) && negb (is_subject line)
      && is_closing line
  | section_header =>
      negb (is_blank line) && negb (is_reference_or_date line)
      && negb (is_salutation line) && negb (is_subject line)
      && negb (is_closing line) && is_section_header line
  | body =>
      negb (is_blank line) && negb (is_reference_or_date line)
      && negb (is_salutation line) && negb (is_subject line)
      && negb (is_closing line) && negb (is_section_header line)
  end.

Definition all_roles : list Role :=
  [ blank; reference_or_date; salutation; subject; closing; section_header;
    body ].

Definition example_letter : string :=
  Py.join Py.LF
    [ "Date: 01.01.2025"; ""; "Dear Sir,";
      "Subject: Authorization for Hoarding"; "Terms:";
      "This letter authorizes installation."; ""; "Yours sincerely,";
      "J. Doe" ].

End Layout.

(** ** Values of a parameter dictionary *)

Module Params.

(** A [datetime.date]. *)
Record Date : Type := mkDate { year : nat; month : nat; day : nat }.

Inductive Value : Type :=
  | VStr (s : string)
  | VDate (d : Date).

Definition decimal (n : nat) : string := NilEmpty.string_of_uint (Nat.to_uint n).

Fixpoint zeros (n : nat) : string :=
  match n with O => EmptyString | S k => String "0"%char (zeros k) end.

(** Zero padding on the left up to [width] characters. *)
Definition zfill (width : nat) (s : string) : string :=
  zeros (width - String.length s) +:+ s.

(** [d.strftime("%d.%m.%Y")], [d.strftime("%Y/%m/%d")] and [str(d)]; the
    year is printed on four digits, as for every date from year 1000 on. *)
Definition strftime_dmY (d : Date) : string :=
  zfill 2 (decimal (day d)) +:+ "." +:+ zfill 2 (decimal (month d)) +:+ "."
  +:+ zfill 4 (decimal (year d)).
Definition strftime_Ymd (d : Date) : string :=
  zfill 4 (decimal (year d)) +:+ "/" +:+ zfill 2 (decimal (month d)) +:+ "/"
  +:+ zfill 2 (decimal (day d)).
Definition isoformat (d : Date) : string :=
  zfill 4 (decimal (year d)) +:+ "-" +:+ zfill 2 (decimal (month d)) +:+ "-"
  +:+ zfill 2 (decimal (day d)).

(** What an f-string writes for [{v}]. *)
Definition fmt (v : Value) : string :=
  match v with VStr s => s | VDate d => isoformat d end.

Definition truthy (v : Value) : bool :=
  match v with VStr s => Py.truthy s | VDate _ => true end.

(** Truth value of [params.get(k)]: an absent key gives [None], which is false. *)
Definition get_truthy (params : gmap string Value) (k : string) : bool :=
  match params !! k with Some v => truthy v | None => false end.

(** [params.get(k, default)] inside an f-string. *)
Definition get_default (params : gmap string Value) (k default : string) : string :=
  match params !! k with Some v => fmt v | None => default end.

(** [{params[k]}] inside an f-string, under a test that makes [k] present. *)
Definition subscript (params : gmap string Value) (k : string) : string :=
  match params !! k with Some v => fmt v | None => EmptyString end.

(** [if params.get(k): prompt += f(params[k])], as the text appended. *)
Definition section_if (params : gmap string Value) (k : string)
    (f : Value -> string) : string :=
  match params !! k with
  | Some v => if truthy v then f v else EmptyString
  | None => EmptyString
  end.

(** A triple-quoted literal whose lines all carry the indentation [ind] of the
    source: a line feed, the lines, and the indentation before the closing
    quotes. *)
Definition block (ind : string) (lines : list string) : string :=
  Py.LF +:+ foldr (fun l acc => ind +:+ l +:+ Py.LF +:+ acc) ind lines.

Definition ind8 : string := "        ".
Definition ind12 : string := "            ".

End Params.

(** ** Exceptions and results *)

Inductive Exn : Type :=
  | TypeError
  | ServiceError (str_e : string).

Inductive Result (A : Type) : Type :=
  | Ok (a : A)
  | Raise (e : Exn).
Arguments Ok {A} a.
Arguments Raise {A} e.

Definition bind {A B : Type} (m : Result A) (k : A -> Result B) : Result B :=
  match m with Ok a => k a | Raise e => Raise e end.

(** ** Messages, the endpoint and the generator object *)

Module Chat.

Inductive RoleTag : Type := system | user | assistant.

(** A message dictionary [{"role": ..., "content": ...}]. *)
Record Message : Type := mkMessage { role : RoleTag; content : string }.

(** The keyword arguments of [openai.chat.completions.create]; the
    temperature 0.2 is kept in tenths. *)
Record ChatRequest : Type := mkChatRequest {
  req_model : string;
  req_messages : list Message;
  req_temperature_tenths : nat;
  req_max_tokens : nat
}.

(** What the call does: it returns a response whose first choice carries
    [content], or an exception [e] comes out of the call or of the reading of
    [response.choices[0].message.content]; [str_e] is [str(e)]. *)
Inductive ApiResult : Type :=
  | Completion (content : string)
  | Failure (str_e : string).

(** The world of one operation: the endpoint and [datetime.date.today()]. *)
Record Env : Type := mkEnv {
  create : ChatRequest -> ApiResult;
  today : Params.Date
}.

(** The attributes of a [LOAGenerator]. *)
Record LOAGenerator : Type := mkLOAGenerator {
  model : string;
  conversation_history : list Message;
  current_loa : option string
}.

(** [LOAGenerator.__init__] *)
Definition init : LOAGenerator := mkLOAGenerator "gpt-4" [] None.

(** [not self.current_loa]: true for [None] and for the empty string. *)
Definition no_current_loa (self : LOAGenerator) : bool :=
  match current_loa self with
  | None => true
  | Some s => negb (Py.truthy s)
  end.

(** What the caller of a method observes. *)
Inductive Outcome : Type :=
  | Returned (text : string)
  | Raised (e : Exn).

Record Step : Type := mkStep {
  outcome : Outcome;
  after : LOAGenerator;
  sent : list ChatRequest
}.

(** [_create_system_prompt], the same text in both files. *)
Definition _create_system_prompt : string :=
  Params.block Params.ind8
    [ "You are an expert in creating Letters of Authorization (LOAs) for outdoor advertising agencies. ";
      "Your task is to generate professional, legally-sound LOAs based on the parameters provided.";
      "";
      "Follow these guidelines:";
      "1. Use formal business language appropriate for official documents";
      "2. Structure the LOA with proper sections including reference numbers, dates, recipient details, subject line, main body, and signatory information";
      "3. Include all necessary legal clauses regarding installation, maintenance, payments, and liability";
      "4. Format dates as DD.MM.YYYY";
      "5. Make the content specific to the scenario provided";
      "6. Ensure payment terms and conditions are clearly stated";
      "7. Include appropriate references to any tenders or previous communications when provided";
      "";
      "Return only the plain text content of the LOA without any explanations or additional formatting." ].

(** The content of the edit message of [edit_loa], the same in both files. *)
Definition edit_content (edit_request : string) : string :=
  Params.block Params.ind12
    [ "Edit the LOA according to the following request:";
      "";
      edit_request;
      "";
      "Return the complete edited LOA." ].

Definition no_loa_message : string :=
  "No LOA has been generated yet. Please generate an LOA first.".

(** [messages.extend(self.conversation_history)] under
    [if self.conversation_history]. *)
Definition extend_if_any (messages history : list Message) : list Message :=
  match history with
  | [] => messages
  | _ :: _ => messages ++ history
  end.

Definition request_of (self : LOAGenerator) (messages : list Message) : ChatRequest :=
  mkChatRequest (model self) messages 2 2500.

(** *** Sequences of calls on one generator *)

Inductive Call : Type :=
  | Generate (env : Env) (params : gmap string Params.Value)
  | Edit (env : Env) (edit_request : string).

Definition env_of (c : Call) : Env :=
  match c with Generate env _ => env | Edit env _ => env end.

Definition is_edit (c : Call) : bool :=
  match c with Edit _ _ => true | Generate _ _ => false end.

(** The endpoint was contacted once and answered with a completion. *)
Definition answered (env : Env) (st : Step) : option string :=
  match sent st with
  | [request] =>
      match create env request with
      | Completion text => Some text
      | Failure _ => None
      end
  | _ => None
  end.

(** The endpoint was contacted once and the call failed. *)
Definition failed (env : Env) (st : Step) : option string :=
  match sent st with
  | [request] =>
      match create env request with
      | Completion _ => None
      | Failure str_e => Some str_e
      end
  | _ => None
  end.

(** *** Shapes of a transcript *)

Definition is_request (m : Message) : bool :=
  match role m with user => true | _ => false end.
Definition is_response (m : Message) : bool :=
  match role m with assistant => true | _ => false end.

Definition requests (h : list Message) : nat := List.length (List.filter is_request h).
Definition responses (h : list Message) : nat := List.length (List.filter is_response h).

(** Request, response, request, response, ...: no two neighbours of one
    role, a request first. *)
Fixpoint alternates (expect_request : bool) (h : list Message) : bool :=
  match h with
  | [] => true
  | m :: rest =>
      (if expect_request then is_request m else is_response m)
      && alternates (negb expect_request) rest
  end.

Definition interleaved (h : list Message) : bool := alternates true h.

(** Only requests and responses, and every response comes right after a
    request; [after_request] tells whether the turn before is a request. *)
Fixpoint answers_follow (after_request : bool) (h : list Message) : bool :=
  match h with
  | [] => true
  | m :: rest =>
      match role m with
      | user => answers_follow true rest
      | assistant => after_request && answers_follow false rest
      | system => false
      end
  end.

(** The transcript holds a response Turn with this text. *)
Definition has_response (text : string) (h : list Message) : bool :=
  existsb (fun m => is_response m && String.eqb (content m) text) h.

(** What every call keeps true of the transcript: no more responses than
    requests, and each response right after a request. *)
Definition well_formed (h : list Message) : Prop :=
  responses h <= requests h /\ answers_follow false h = true.

(** Complete pairs only: request, response, request, response. *)
Fixpoint paired (h : list Message) : bool :=
  match h with
  | [] => true
  | m1 :: m2 :: rest => is_request m1 && is_response m2 && paired rest
  | [_] => false
  end.

(** The instruction of a revision call. *)
Definition edit_text (c : Call) : string :=
  match c with Edit _ edit_request => edit_request | Generate _ _ => EmptyString end.

(** The Turn pairs of a list of revisions with their answers. *)
Fixpoint edit_turns (edits : list (string * string)) : list Message :=
  match edits with
  | [] => []
  | (edit_request, answer) :: rest =>
      mkMessage user (edit_content edit_request)
      :: mkMessage assistant answer :: edit_turns rest
  end.

End Chat.

(** ** [src/main.py] *)

Module Main.
Import Params Chat.

(** Lines 56-75 of [_construct_loa_prompt]: the recipient address. *)

(** [if params.get(k): address_parts.append(params[k])] *)
Definition append_if (params : gmap string Value) (k : string)
    (address_parts : list Value) : list Value :=
  match params !! k with
  | Some v => if truthy v then address_parts ++ [v] else address_parts
  | None => address_parts
  end.

(** [city_pincode += params["city"]]: adding a date to a [str] raises. *)
Definition add_city (params : gmap string Value) (city_pincode : string)
    : Result string :=
  match params !! "city" with
  | Some v =>
      if truthy v then
        match v with
        | VStr s => Ok (city_pincode +:+ s)
        | VDate _ => Raise TypeError
        end
      else Ok city_pincode
  | None => Ok city_pincode
  end.

(** [city_pincode += f" - {params['pincode']}"] *)
Definition add_pincode (params : gmap string Value) (city_pincode : string)
    : string :=
  city_pincode +:+ section_if params "pincode" (fun v => " - " +:+ fmt v).

(** ["\n".join(address_parts)]: every item has to be a [str]. *)
Fixpoint str_items (parts : list Value) : Result (list string) :=
  match parts with
  | [] => Ok []
  | VStr s :: rest => bind (str_items rest) (fun l => Ok (s :: l))
  | VDate _ :: _ => Raise TypeError
  end.

Definition recipient_address (params : gmap string Value) : Result string :=
  let address_parts := [] in
  let address_parts := append_if params "company_name" address_parts in
  let address_parts := append_if params "address_line1" address_parts in
  let address_parts := append_if params "address_line2" address_parts in
  let address_parts := append_if params "address_line3" address_parts in
  bind (add_city params "") (fun city_pincode =>
  let city_pincode := add_pincode params city_pincode in
  let address_parts :=
    if Py.truthy city_pincode then address_parts ++ [VStr city_pincode]
    else address_parts in
  bind (str_items address_parts) (fun items => Ok (Py.join Py.LF items))).

(** Lines 77-84: the date. *)
Definition date_str (env : Env) (params : gmap string Value) : string :=
  match params !! "date" with
  | Some (VDate d) => strftime_dmY d
  | Some (VStr s) => if Py.truthy s then s else strftime_dmY (today env)
  | None => strftime_dmY (today env)
  end.

(** The reference number written on line 90. *)
Definition reference_number (env : Env) (params : gmap string Value) : string :=
  get_default params "reference_number" ("LOA/" +:+ strftime_Ymd (today env)).

(** Lines 87-96. *)
Definition header (env : Env) (params : gmap string Value)
    (recipient : string) : string :=
  block ind8
    [ "Generate a Letter of Authorization (LOA) with the following details:";
      "";
      "Reference Number: " +:+ reference_number env params;
      "Date: " +:+ date_str env params;
      "";
      "Recipient:";
      recipient;
      "" ].

(** Lines 98-106. *)
Definition contact (params : gmap string Value) : string :=
  section_if params "contact_person" (fun v => "Kind attention: " +:+ fmt v +:+ Py.LF)
  +:+ section_if params "contact_email" (fun v => "Email: " +:+ fmt v +:+ Py.LF)
  +:+ section_if params "contact_phone" (fun v => "Phone: " +:+ fmt v +:+ Py.LF).

(** Lines 108-115. *)
Definition scenario (params : gmap string Value) : string :=
  block ind8
    [ "Scenario: " +:+ get_default params "scenario" "outdoor advertising";
      "";
      "Subject: LOA for "
        +:+ get_default params "scenario_description" "Outdoor Advertisement"
        +:+ " at " +:+ get_default params "location" "[Location]";
      "";
      "Duration: " +:+ get_default params "duration" "5" +:+ " years" ].

(** Lines 117-129. *)
Definition specifics (params : gmap string Value) : string :=
  section_if params "size" (fun v => "Size of Advertising Space: " +:+ fmt v +:+ Py.LF)
  +:+
  (if get_truthy params "payment_type" && get_truthy params "payment_amount" then
     block ind12
       [ "Payment Details:";
         "- Type: " +:+ subscript params "payment_type";
         "- Amount: " +:+ subscript params "payment_amount"
           +:+ " per " +:+ get_default params "payment_unit" "square foot" ]
     +:+ section_if params "annual_increase"
           (fun v => "- Annual Increase: " +:+ fmt v +:+ "%" +:+ Py.LF)
   else "").

(** Lines 131-136. *)
Definition additional_terms (params : gmap string Value) : string :=
  section_if params "additional_terms"
    (fun v => block ind12 [ "Additional Terms:"; fmt v ]).

(** Lines 138-144. *)
Definition signatory (params : gmap string Value) : string :=
  block ind8
    [ "Signatory:";
      "Name: " +:+ get_default params "signatory_name" "[Signatory Name]";
      "Position: " +:+ get_default params "signatory_position" "[Position]";
      "Organization: " +:+ get_default params "organization" "[Organization]" ].

(** Lines 146-151. *)
Definition special_requirements (params : gmap string Value) : string :=
  section_if params "special_requirements"
    (fun v => block ind12 [ "Special Requirements:"; fmt v ]).

(** Lines 153-164. *)
Definition style_guidance : string :=
  block ind8
    [ "Base the style and format on typical outdoor advertising LOAs which include:";
      "1. A formal header with reference number and date";
      "2. Clear recipient information";
      "3. A specific subject line stating the purpose";
      "4. An introduction referencing any tender or previous communication";
      "5. A main section clearly authorizing the advertising and stating terms";
      "6. Detailed conditions including payment terms, responsibilities, and operational requirements";
      "7. Standard legal clauses covering liability, termination, and compliance";
      "8. A formal closing with signatory information" ].

Definition _construct_loa_prompt (env : Env) (params : gmap string Value)
    : Result string :=
  bind (recipient_address params) (fun recipient =>
  Ok (header env params recipient
      +:+ contact params
      +:+ scenario params
      +:+ specifics params
      +:+ additional_terms params
      +:+ signatory params
      +:+ special_requirements params
      +:+ style_guidance)).

(** The first message list of [generate_loa]. *)
Definition generate_messages (self : LOAGenerator) (prompt : string) : list Message :=
  extend_if_any
    [ mkMessage system _create_system_prompt; mkMessage user prompt ]
    (conversation_history self).

(** [generate_loa]: nothing is caught, an exception leaves the method. *)
Definition generate_loa (env : Env) (params : gmap string Value)
    (self : LOAGenerator) : Step :=
  match _construct_loa_prompt env params with
  | Raise e => mkStep (Raised e) self []
  | Ok prompt =>
      let request := request_of self (generate_messages self prompt) in
      match create env request with
      | Failure str_e => mkStep (Raised (ServiceError str_e)) self [request]
      | Completion loa_content =>
          mkStep (Returned loa_content)
            (mkLOAGenerator (model self)
               [ mkMessage user prompt; mkMessage assistant loa_content ]
               (Some loa_content))
            [request]
      end
  end.

(** The history once [edit_message] is appended, and the list sent. *)
Definition with_edit (self : LOAGenerator) (edit_request : string) : LOAGenerator :=
  mkLOAGenerator (model self)
    (conversation_history self ++ [mkMessage user (edit_content edit_request)])
    (current_loa self).

Definition edit_messages (self : LOAGenerator) (edit_request : string) : list Message :=
  [ mkMessage system _create_system_prompt ]
  ++ conversation_history (with_edit self edit_request).

(** [edit_loa]: the edit message is appended before the call, and the call is
    not guarded. *)
Definition edit_loa (env : Env) (edit_request : string) (self : LOAGenerator)
    : Step :=
  if no_current_loa self then mkStep (Returned no_loa_message) self []
  else
    let self1 := with_edit self edit_request in
    let request := request_of self1 (edit_messages self edit_request) in
    match create env request with
    | Failure str_e => mkStep (Raised (ServiceError str_e)) self1 [request]
    | Completion edited_loa =>
        mkStep (Returned edited_loa)
          (mkLOAGenerator (model self1)
             (conversation_history self1 ++ [mkMessage assistant edited_loa])
             (Some edited_loa))
          [request]
    end.

(** One call, a sequence of calls, and a sequence in which every call was
    answered by the endpoint (with the request and the answer of each). *)
Definition step (c : Call) (self : LOAGenerator) : Step :=
  match c with
  | Generate env params => generate_loa env params self
  | Edit env edit_request => edit_loa env edit_request self
  end.

Fixpoint run (calls : list Call) (self : LOAGenerator) : LOAGenerator :=
  match calls with
  | [] => self
  | c :: rest => run rest (after (step c self))
  end.

Fixpoint run_answered (calls : list Call) (self : LOAGenerator)
    : option (LOAGenerator * list (ChatRequest * string)) :=
  match calls with
  | [] => Some (self, [])
  | c :: rest =>
      let st := step c self in
      match answered (env_of c) st, sent st with
      | Some text, [request] =>
          match run_answered rest (after st) with
          | Some (final, log) => Some (final, (request, text) :: log)
          | None => None
          end
      | _, _ => None
      end
  end.

End Main.

(** ** [src/app.py] *)

Module App.
Import Params Chat.

(** [_construct_loa_prompt]: one f-string; every field is written with
    [params.get(k, default)], so no value can make it raise. *)
Definition _construct_loa_prompt (env : Env) (params : gmap string Value) : string :=
  let date_str := strftime_dmY (today env) in
  block ind8
    ([ "Generate a Letter of Authorization (LOA) with the following details:";
       "";
       "Date: " +:+ date_str;
       "";
       "Recipient Address:";
       get_default params "address" "";
       "";
       "To: " +:+ get_default params "to_whom" "To Whom It May Concern";
       "";
       "Scenario: " +:+ get_default params "scenario" "";
       "";
       "Specific Details to Include:";
       get_default params "specific_details" "";
       "";
       "Closing:";
       "Yours sincerely,";
       get_default params "yours_sincerely" "";
       "" ] ++
     [ "The LOA should follow a formal business letter format with:";
      "1. Clear header with date";
      "2. Recipient address";
      "3. Appropriate salutation";
      "4. A clear introduction stating the purpose of the letter";
      "5. A main body detailing the specifics of the authorization";
      "6. Any necessary terms and conditions";
      "7. A formal closing with signatory information";
      "";
      "Ensure the content specifically addresses the scenario provided and incorporates all the specific details mentioned." ]).

Definition generate_messages (self : LOAGenerator) (prompt : string) : list Message :=
  extend_if_any
    [ mkMessage system _create_system_prompt; mkMessage user prompt ]
    (conversation_history self).

(** [generate_loa]: the call and the bookkeeping sit in a [try]; the handler
    returns the error text. *)
Definition generate_loa (env : Env) (params : gmap string Value)
    (self : LOAGenerator) : Step :=
  let prompt := _construct_loa_prompt env params in
  let request := request_of self (generate_messages self prompt) in
  match create env request with
  | Failure str_e => mkStep (Returned ("Error generating LOA: " +:+ str_e)) self [request]
  | Completion loa_content =>
      mkStep (Returned loa_content)
        (mkLOAGenerator (model self)
           [ mkMessage user prompt; mkMessage assistant loa_content ]
           (Some loa_content))
        [request]
  end.

Definition with_edit (self : LOAGenerator) (edit_request : string) : LOAGenerator :=
  mkLOAGenerator (model self)
    (conversation_history self ++ [mkMessage user (edit_content edit_request)])
    (current_loa self).

Definition edit_messages (self : LOAGenerator) (edit_request : string) : list Message :=
  [ mkMessage system _create_system_prompt ]
  ++ conversation_history (with_edit self edit_request).

(** [edit_loa]: the edit message is appended before the [try]; the handler
    returns the error text and undoes nothing. *)
Definition edit_loa (env : Env) (edit_request : string) (self : LOAGenerator)
    : Step :=
  if no_current_loa self then mkStep (Returned no_loa_message) self []
  else
    let self1 := with_edit self edit_request in
    let request := request_of self1 (edit_messages self edit_request) in
    match create env request with
    | Failure str_e => mkStep (Returned ("Error editing LOA: " +:+ str_e)) self1 [request]
    | Completion edited_loa =>
        mkStep (Returned edited_loa)
          (mkLOAGenerator (model self1)
             (conversation_history self1 ++ [mkMessage assistant edited_loa])
             (Some edited_loa))
          [request]
    end.

(** One call, a sequence of calls, and a sequence in which every call was
    answered by the endpoint (with the request and the answer of each). *)
Definition step (c : Call) (self : LOAGenerator) : Step :=
  match c with
  | Generate env params => generate_loa env params self
  | Edit env edit_request => edit_loa env edit_request self
  end.

Fixpoint run (calls : list Call) (self : LOAGenerator) : LOAGenerator :=
  match calls with
  | [] => self
  | c :: rest => run rest (after (step c self))
  end.

Fixpoint run_answered (calls : list Call) (self : LOAGenerator)
    : option (LOAGenerator * list (ChatRequest * string)) :=
  match calls with
  | [] => Some (self, [])
  | c :: rest =>
      let st := step c self in
      match answered (env_of c) st, sent st with
      | Some text, [request] =>
          match run_answered rest (after st) with
          | Some (final, log) => Some (final, (request, text) :: log)
          | None => None
          end
      | _, _ => None
      end
  end.

End App.

(** ** The address block as the specification words it *)

Module AddressSpec.
Import Params.

(** The fields that are joined as text. *)
Definition text_keys : list string :=
  [ "company_name"; "address_line1"; "address_line2"; "address_line3"; "city" ].

(** The field [k] is absent or holds text. *)
Definition text_field (params : gmap string Value) (k : string) : bool :=
  match params !! k with Some (VDate _) => false | _ => true end.

Definition address_is_text (params : gmap string Value) : bool :=
  forallb (text_field params) text_keys.

(** The text of the field [k], empty when the field is absent. *)
Definition segment (params : gmap string Value) (k : string) : string :=
  match params !! k with Some (VStr s) => s | _ => EmptyString end.

(** The city with its optional pincode suffix. *)
Definition city_segment (params : gmap string Value) : string :=
  segment params "city"
  +:+ section_if params "pincode" (fun v => " - " +:+ fmt v).

Definition segments (params : gmap string Value) : list string :=
  [ segment params "company_name"; segment params "address_line1";
    segment params "address_line2"; segment params "address_line3";
    city_segment params ].

Definition populated (l : list string) : list string := List.filter Py.truthy l.

(** No line break inside [s]. *)
Fixpoint one_line (s : string) : bool :=
  match s with
  | EmptyString => true
  | String c s' => negb (Ascii.eqb c "010"%char) && one_line s'
  end.

(** [x] occurs in [s]. *)
Definition occurs_in (x s : string) : Prop :=
  exists before rest, s = before +:+ x +:+ rest.

(** Every field of the address is absent or empty. *)
Definition address_keys : list string := text_keys ++ ["pincode"].
Definition address_is_empty (params : gmap string Value) : bool :=
  forallb (fun k => negb (get_truthy params k)) address_keys.

(** Sample parameter sets. *)
Definition sample_address : gmap string Value :=
  <["company_name" := VStr "Wallop Advertising"]>
  (<["address_line1" := VStr "Office No. 02"]>
  (<["address_line2" := VStr ""]>
  (<["city" := VStr "Mumbai"]>
  (<["pincode" := VStr "400051"]> ∅)))).

Definition sample_date : Date := mkDate 2026 11 4.

End AddressSpec.

(** ** The presentation of a block and measures on text *)

Module LayoutSpec.
Import Layout.





(** A letter with a control character in its second line. *)
Definition bell_letter : string :=
  "Dear Sir," +:+ Py.LF +:+ String "a" (String "007"%char "b").

Fixpoint count_char (c : ascii) (s : string) : nat :=
  match s with
  | EmptyString => 0
  | String x s' => (if Ascii.eqb x c then 1 else 0) + count_char c s'
  end.

(** Only white space. *)
Fixpoint all_space (s : string) : bool :=
  match s with
  | EmptyString => true
  | String c s' => Py.isspace c && all_space s'
  end.

(** Empty, or a first character that is not white space. *)
Definition starts_nonspace (s : string) : Prop :=
  match s with
  | EmptyString => True
  | String c _ => Py.isspace c = false
  end.

Definition no_block : Block := mkBlock "" blank.


End LayoutSpec.

(** ** The keys the prompt builders read *)

Module PromptSpec.
Import Params.

(** Every key [_construct_loa_prompt] of [src/main.py] looks up. *)
Definition main_keys : list string :=
  [ "company_name"; "address_line1"; "address_line2"; "address_line3";
    "city"; "pincode"; "date"; "reference_number"; "contact_person";
    "contact_email"; "contact_phone"; "scenario"; "scenario_description";
    "location"; "duration"; "size"; "payment_type"; "payment_amount";
    "payment_unit"; "annual_increase"; "additional_terms"; "signatory_name";
    "signatory_position"; "organization"; "special_requirements" ].

(** Every key [_construct_loa_prompt] of [src/app.py] looks up. *)
Definition app_keys : list string :=
  [ "address"; "to_whom"; "scenario"; "specific_details"; "yours_sincerely" ].

(** A parameter set whose company name is a date object. *)
Definition dated_company : gmap string Value :=
  <["company_name" := VDate (mkDate 2026 11 4)]>
  (<["city" := VStr "Pune"]> ∅).

(** A parameter set with its own reference number and date. *)
Definition stamped : gmap string Value :=
  <["reference_number" := VStr "RE/LOA/2024/001"]>
  (<["date" := VStr "next Monday"]>
  (<["company_name" := VStr "Wallop Advertising"]> ∅)).

End PromptSpec.

(** ** Measures on a session *)

Module SessionSpec.
Import Params Chat.

(** The text of the last response Turn of a transcript, if it has one. *)
Fixpoint last_response (h : list Message) : option string :=
  match h with
  | [] => None
  | m :: rest =>
      match last_response rest with
      | Some text => Some text
      | None => if is_response m then Some (content m) else None
      end
  end.

(** Every request that goes out during a sequence of calls, in order. *)
Fixpoint app_requests (calls : list Call) (self : LOAGenerator) : list ChatRequest :=
  match calls with
  | [] => []
  | c :: rest =>
      sent (App.step c self) ++ app_requests rest (after (App.step c self))
  end.

Fixpoint main_requests (calls : list Call) (self : LOAGenerator) : list ChatRequest :=
  match calls with
  | [] => []
  | c :: rest =>
      sent (Main.step c self) ++ main_requests rest (after (Main.step c self))
  end.

(** A request as both files build it: the model of a fresh generator, the
    temperature 0.2, 2500 tokens at most, the system directive first. *)
Definition standard_request (r : ChatRequest) : Prop :=
  req_model r = "gpt-4"
  /\ req_temperature_tenths r = 2
  /\ req_max_tokens r = 2500
  /\ List.hd_error (req_messages r)
     = Some (mkMessage system _create_system_prompt).

End SessionSpec.

(** ** [json.dump] with [indent=2] on a transcript, and a reader for it *)

Module Json.
Import Chat.

Definition DQ : ascii := "034"%char.
Definition BS : ascii := "092"%char.

Definition hex_digits : list ascii :=
  [ "0"; "1"; "2"; "3"; "4"; "5"; "6"; "7"; "8"; "9";
    "a"; "b"; "c"; "d"; "e"; "f" ]%char.

Definition hex_digit (n : nat) : ascii := nth n hex_digits "0"%char.

(** The four-digit escape of a code point below 256. *)
Definition u_escape (c : ascii) : string :=
  let n := nat_of_ascii c in
  String BS (String "u" (String "0" (String "0"
    (String (hex_digit (n / 16)) (String (hex_digit (n mod 16)) ""))))).

(** What the encoder (with [ensure_ascii], the default) writes for one
    character: the quote and the backslash behind a backslash, the five
    short escapes, a four-digit escape for every other character outside
    space..tilde, the character itself otherwise. *)
Definition escape_char (c : ascii) : string :=
  let n := nat_of_ascii c in
  if n =? 34 then String BS (String DQ "")
  else if n =? 92 then String BS (String BS "")
  else if n =? 10 then String BS "n"
  else if n =? 13 then String BS "r"
  else if n =? 9 then String BS "t"
  else if n =? 8 then String BS "b"
  else if n =? 12 then String BS "f"
  else if (n <? 32) || (126 <? n) then u_escape c
  else String c "".

Fixpoint escape (s : string) : string :=
  match s with
  | EmptyString => EmptyString
  | String c s' => escape_char c +:+ escape s'
  end.

Definition encode_string (s : string) : string :=
  String DQ (escape s +:+ String DQ "").

Definition role_name (r : RoleTag) : string :=
  match r with
  | system => "system"
  | user => "user"
  | assistant => "assistant"
  end.

Definition record_open : string :=
  "{" +:+ Py.LF +:+ "    " +:+ encode_string "role" +:+ ": ".
Definition record_middle : string :=
  "," +:+ Py.LF +:+ "    " +:+ encode_string "content" +:+ ": ".
Definition record_close : string := Py.LF +:+ "  }".
Definition item_separator : string := "," +:+ Py.LF +:+ "  ".
Definition list_open : string := "[" +:+ Py.LF +:+ "  ".
Definition list_close : string := Py.LF +:+ "]".

(** One message dictionary, two levels deep in the indentation. *)
Definition record (m : Message) : string :=
  record_open +:+ encode_string (role_name (role m))
  +:+ record_middle +:+ encode_string (content m) +:+ record_close.

(** [json.dumps(history, indent=2)] *)
Definition dumps (h : list Message) : string :=
  match h with
  | [] => "[]"
  | _ :: _ => list_open +:+ Py.join item_separator (map record h) +:+ list_close
  end.

(** *** Reading the text back *)

Definition hex_value (c : ascii) : option nat :=
  let n := nat_of_ascii c in
  if (48 <=? n) && (n <=? 57) then Some (n - 48)
  else if (97 <=? n) && (n <=? 102) then Some (n - 87)
  else None.

Definition short_escape (c : ascii) : option ascii :=
  let n := nat_of_ascii c in
  if n =? 34 then Some DQ
  else if n =? 92 then Some BS
  else if n =? 110 then Some "010"%char
  else if n =? 114 then Some "013"%char
  else if n =? 116 then Some "009"%char
  else if n =? 98 then Some "008"%char
  else if n =? 102 then Some "012"%char
  else None.

Definition cons_char (c : ascii) (r : option (string * string))
    : option (string * string) :=
  match r with
  | Some (s, rest) => Some (String c s, rest)
  | None => None
  end.

(** The characters up to the closing quote, escapes undone, and what
    follows the quote. *)
Fixpoint unescape (s : string) : option (string * string) :=
  match s with
  | EmptyString => None
  | String c rest =>
      if Ascii.eqb c DQ then Some (EmptyString, rest)
      else if Ascii.eqb c BS then
        match rest with
        | String "u" (String "0" (String "0" (String h (String l rest')))) =>
            match hex_value h, hex_value l with
            | Some a, Some b => cons_char (ascii_of_nat (16 * a + b)) (unescape rest')
            | _, _ => None
            end
        | String e rest' =>
            match short_escape e with
            | Some x => cons_char x (unescape rest')
            | None => None
            end
        | EmptyString => None
        end
      else cons_char c (unescape rest)
  end.

Definition parse_string (s : string) : option (string * string) :=
  match s with
  | String c rest => if Ascii.eqb c DQ then unescape rest else None
  | EmptyString => None
  end.

(** [s] without its prefix [lit], if it starts with it. *)
Fixpoint expect (lit s : string) : option string :=
  match lit with
  | EmptyString => Some s
  | String c lit' =>
      match s with
      | String d s' => if Ascii.eqb c d then expect lit' s' else None
      | EmptyString => None
      end
  end.

Definition role_of_name (name : string) : option RoleTag :=
  if String.eqb name "system" then Some system
  else if String.eqb name "user" then Some user
  else if String.eqb name "assistant" then Some assistant
  else None.

Definition parse_record (s : string) : option (Message * string) :=
  s1 ← expect record_open s;
  '(name, s2) ← parse_string s1;
  r ← role_of_name name;
  s3 ← expect record_middle s2;
  '(text, s4) ← parse_string s3;
  s5 ← expect record_close s4;
  Some (mkMessage r text, s5).

Fixpoint parse_records (fuel : nat) (s : string) : option (list Message) :=
  match fuel with
  | O => None
  | S fuel' =>
      '(m, s1) ← parse_record s;
      match expect list_close s1 with
      | Some EmptyString => Some [m]
      | _ =>
          s2 ← expect item_separator s1;
          rest ← parse_records fuel' s2;
          Some (m :: rest)
      end
  end.

Definition loads (s : string) : option (list Message) :=
  if String.eqb s "[]" then Some []
  else s1 ← expect list_open s; parse_records (String.length s) s1.

End Json.

(** ** Files and the console: [save_loa], [export_to_json] and [main] of
    [src/main.py] *)

Module Files.
Import Params Chat.

(** The files by name, the lines printed so far, and which names can be
    opened for writing. *)
Record World : Type := mkWorld {
  files : gmap string string;
  stdout : list string;
  writable : string -> bool
}.

Inductive IoOutcome : Type :=
  | Done
  | OSError.

Definition print (line : string) (w : World) : World :=
  mkWorld (files w) (stdout w ++ [line]) (writable w).

(** [with open(filename, 'w') as f: f.write(text)] once the open succeeded. *)
Definition write (filename text : string) (w : World) : World :=
  mkWorld (<[filename := text]> (files w)) (stdout w) (writable w).

Definition letter_text (self : LOAGenerator) : string :=
  match current_loa self with Some text => text | None => EmptyString end.

Definition save_loa (filename : string) (self : LOAGenerator) (w : World)
    : IoOutcome * World :=
  if no_current_loa self then (Done, print no_loa_message w)
  else if writable w filename then
    (Done, print ("LOA saved to " +:+ filename)
             (write filename (letter_text self) w))
  else (OSError, w).

Definition export_to_json (filename : string) (self : LOAGenerator) (w : World)
    : IoOutcome * World :=
  match conversation_history self with
  | [] => (Done, print "No conversation history available." w)
  | _ :: _ =>
      if writable w filename then
        (Done, print ("Conversation history exported to " +:+ filename)
                 (write filename (Json.dumps (conversation_history self)) w))
      else (OSError, w)
  end.

(** The parameters of the example in [main]. *)
Definition example_params (today : Date) : gmap string Value :=
  list_to_map
    [ ("reference_number", VStr "RE/DIGITAL_HOARDING/LOA/2024/001");
      ("date", VDate today);
      ("company_name", VStr "Wallop Advertising Private Limited");
      ("address_line1", VStr "Office No. 02");
      ("address_line2", VStr "10th Floor, Pinnacle Corporate Park");
      ("address_line3", VStr "Near Trade Center, BKC, Bandra (E)");
      ("city", VStr "Mumbai");
      ("pincode", VStr "400051");
      ("contact_person", VStr "Mr. Arshad Khan");
      ("contact_email", VStr "arshad.khan@wallopadvertising.com");
      ("contact_phone", VStr "9029006666");
      ("scenario", VStr "Digital Hoarding");
      ("scenario_description", VStr "Providing Digital Hoardings at Retail Outlet");
      ("location", VStr "FC Road, Pune City");
      ("size", VStr "20' X 20' = 400 Sq. Ft.");
      ("duration", VStr "5");
      ("payment_type", VStr "Quarterly");
      ("payment_amount", VStr "310");
      ("payment_unit", VStr "Sq Ft/Per Year");
      ("annual_increase", VStr "5");
      ("signatory_name", VStr "Territory Manager");
      ("signatory_position", VStr "Territory Manager (Retail)");
      ("organization", VStr "Example Corporation Ltd.") ].

Definition example_edit_request : string :=
  "Change the payment amount to 350 per square foot and add a clause about the vendor being responsible for any damage to the property.".

(** How the script ends: it runs to its end, an exception of the generator
    stops it, or a file cannot be opened. *)
Inductive ScriptOutcome : Type :=
  | Finished
  | Stopped (e : Exn)
  | StoppedOnFile.

(** [main]: [env1] is the world of the generation, [env2] the one of the
    revision. *)
Definition main (env1 env2 : Env) (w : World) : ScriptOutcome * World :=
  let generator := init in
  let params := example_params (today env1) in
  let st1 := Main.generate_loa env1 params generator in
  match outcome st1 with
  | Raised e => (Stopped e, w)
  | Returned loa =>
      let w := print "--- Generated LOA ---" w in
      let w := print loa w in
      let st2 := Main.edit_loa env2 example_edit_request (after st1) in
      match outcome st2 with
      | Raised e => (Stopped e, w)
      | Returned edited_loa =>
          let w := print (Py.LF +:+ "--- Edited LOA ---") w in
          let w := print edited_loa w in
          match save_loa "sample_loa.txt" (after st2) w with
          | (OSError, w) => (StoppedOnFile, w)
          | (Done, w) =>
              match export_to_json "conversation_history.json" (after st2) w with
              | (OSError, w) => (StoppedOnFile, w)
              | (Done, w) => (Finished, w)
              end
          end
      end
  end.

End Files.

(** ** Sample worlds and sessions *)

Module Samples.
Import Params Chat.

Definition a_day : Date := mkDate 2026 11 4.

(** An endpoint that always answers [text], and one that always fails. *)
Definition answering (text : string) : Env := mkEnv (fun _ => Completion text) a_day.
Definition failing (str_e : string) : Env := mkEnv (fun _ => Failure str_e) a_day.

Definition no_params : gmap string Value := ∅.

(** A generation, a failed revision and an answered revision. *)
Definition generate_fail_edit : list Call :=
  [ Generate (answering "first letter") no_params;
    Edit (failing "timeout") "shorter";
    Edit (answering "second letter") "shorter" ].

(** A generation followed by a failed revision. *)
Definition generate_fail : list Call :=
  [ Generate (answering "first letter") no_params;
    Edit (failing "timeout") "shorter" ].

(** Two generations in a row. *)
Definition generate_twice : list Call :=
  [ Generate (answering "first letter") no_params;
    Generate (answering "second letter") no_params ].

Definition generate_edit : list Call :=
  [ Generate (answering "first letter") no_params;
    Edit (answering "second letter") "shorter" ].

End Samples.

(** * Properties *)

(** ** Layout renderer *)

Module LayoutFacts.
Import Layout.

Lemma lines_of_blank (content : string) :
  Py.strip content = "" -> lines_of content = [""].
Proof. intros H. unfold lines_of. rewrite H. reflexivity. Qed.

Lemma classify_first_match (raw : string) (r : Role) :
  classify raw = r <-> first_match r (Py.strip raw) = true.
Proof.
  unfold classify, process_line.
  destruct (is_blank (Py.strip raw)) eqn:Hb,
    (is_reference_or_date (Py.strip raw)) eqn:Hr,
    (is_salutation (Py.strip raw)) eqn:Hsa,
    (is_subject (Py.strip raw)) eqn:Hsu,
    (is_closing (Py.strip raw)) eqn:Hc,
    (is_section_header (Py.strip raw)) eqn:Hh;
    destruct r; simpl; rewrite ?Hb, ?Hr, ?Hsa, ?Hsu, ?Hc, ?Hh; simpl;
    split; intros; congruence.
Qed.

Lemma first_match_unique (line : string) (r1 r2 : Role) :
  first_match r1 line = true -> first_match r2 line = true -> r1 = r2.
Proof.
  destruct (is_blank line) eqn:Hb, (is_reference_or_date line) eqn:Hr,
    (is_salutation line) eqn:Hsa, (is_subject line) eqn:Hsu,
    (is_closing line) eqn:Hc, (is_section_header line) eqn:Hh;
    destruct r1, r2; simpl; rewrite ?Hb, ?Hr, ?Hsa, ?Hsu, ?Hc, ?Hh; simpl;
    intros; congruence.
Qed.

Lemma first_match_exists (line : string) :
  exists r, first_match r line = true.
Proof.
  destruct (is_blank line) eqn:Hb; [exists blank; simpl; congruence|].
  destruct (is_reference_or_date line) eqn:Hr;
    [exists reference_or_date; simpl; rewrite Hb, Hr; reflexivity|].
  destruct (is_salutation line) eqn:Hsa;
    [exists salutation; simpl; rewrite Hb, Hr, Hsa; reflexivity|].
  destruct (is_subject line) eqn:Hsu;
    [exists subject; simpl; rewrite Hb, Hr, Hsa, Hsu; reflexivity|].
  destruct (is_closing line) eqn:Hc;
    [exists closing; simpl; rewrite Hb, Hr, Hsa, Hsu, Hc; reflexivity|].
  destruct (is_section_header line) eqn:Hh;
    [exists section_header | exists body];
    simpl; rewrite Hb, Hr, Hsa, Hsu, Hc, Hh; reflexivity.
Qed.

Lemma split_not_nil (sep : ascii) (s : string) : Py.split sep s <> [].
Proof.
  induction s as [|c s IH]; simpl; [discriminate|].
  destruct (Ascii.eqb c sep); [discriminate|].
  destruct (Py.split sep s); discriminate.
Qed.

Lemma render_length (content : string) :
  List.length (render content) = List.length (lines_of content).
Proof. unfold render. apply length_map. Qed.

Lemma process_line_fails (raw : string) :
  snd (process_line raw) = None <-> has_control (Py.strip raw) = true.
Proof.
  unfold process_line, plain_paragraph, bold_paragraph, right_bold_paragraph,
    add_run.
  destruct (is_blank (Py.strip raw)) eqn:Hb.
  - destruct (Py.strip raw); [|discriminate Hb]. cbn. split; discriminate.
  - destruct (is_reference_or_date (Py.strip raw)),
      (is_salutation (Py.strip raw)), (is_subject (Py.strip raw)),
      (is_closing (Py.strip raw)), (is_section_header (Py.strip raw));
      cbn [snd]; destruct (has_control (Py.strip raw));
      split; intros; congruence.
Qed.

Lemma add_paragraphs_fails (lines : list string) :
  add_paragraphs lines = None
  <-> existsb (fun l => has_control (Py.strip l)) lines = true.
Proof.
  induction lines as [|l lines IH]; cbn [add_paragraphs existsb].
  - split; discriminate.
  - destruct (snd (process_line l)) as [p|] eqn:Hp.
    + assert (Hc : has_control (Py.strip l) = false).
      { destruct (has_control (Py.strip l)) eqn:E; [|reflexivity].
        apply process_line_fails in E. congruence. }
      rewrite Hc. cbn [orb]. rewrite <- IH.
      destruct (add_paragraphs lines); split; intros; congruence.
    + apply process_line_fails in Hp. rewrite Hp. split; reflexivity.
Qed.

Lemma add_paragraphs_lines (lines : list string) (ps : list Paragraph) :
  add_paragraphs lines = Some ps ->
  map Some ps = map (fun l => snd (process_line l)) lines.
Proof.
  revert ps. induction lines as [|l lines IH]; intros ps; cbn [add_paragraphs].
  - intros H. injection H as <-. reflexivity.
  - destruct (snd (process_line l)) as [p|] eqn:Hp; [|discriminate].
    destruct (add_paragraphs lines) as [ps'|]; [|discriminate].
    intros H. injection H as <-. cbn [map]. rewrite (IH ps' eq_refl), Hp.
    reflexivity.
Qed.

Lemma built_paragraphs (content : string) (doc : Document) :
  create_word_document content = Built doc ->
  add_paragraphs (lines_of content) = Some (paragraphs doc)
  /\ doc = mkDocument 1 1 1 1 (paragraphs doc).
Proof.
  unfold create_word_document.
  destruct (add_paragraphs (lines_of content)) as [ps|]; [|discriminate].
  intros H. injection H as <-. split; reflexivity.
Qed.

Lemma render_paragraphs (content : string) (doc : Document) :
  create_word_document content = Built doc ->
  List.length (paragraphs doc) = List.length (render content).
Proof.
  intros H. destruct (built_paragraphs content doc H) as [Hp _].
  apply add_paragraphs_lines in Hp.
  apply (f_equal (@List.length _)) in Hp. rewrite !length_map in Hp.
  unfold render. rewrite length_map. exact Hp.
Qed.

(** The single-line cases the specification lists with the example. *)
Example subject_before_header : classify "Subject: Renewal" = subject.
Proof. reflexivity. Qed.

Example terms_is_header : classify "Terms:" = section_header.
Proof. reflexivity. Qed.

Example prose_is_body :
  map role (render ("We confirm the booking." +:+ Py.LF +:+ "Payment is due."))
  = [body; body].
Proof. reflexivity. Qed.

Example long_header_is_body :
  classify "The terms and conditions of this authorization are these:" = body.
Proof. reflexivity. Qed.

(** C6: the nine-line example letter of the specification renders to nine
    blocks whose roles are, in order, reference-or-date, blank, salutation,
    subject, section-header, body, blank, closing, body. *)
Theorem render_example_roles :
  map role (render example_letter) =
  [ reference_or_date; blank; salutation; subject; section_header; body;
    blank; closing; body ].
Proof. vm_compute. reflexivity. Qed.

(** C7, as the claim states it, fails on [create_word_document]: a control
    character inside a line makes [add_run] raise a [ValueError], and no
    document comes back. *)
Lemma control_character_raises :
  create_word_document LayoutSpec.bell_letter = ValueError
  /\ map role (render LayoutSpec.bell_letter) = [salutation; body].
Proof. split; vm_compute; reflexivity. Qed.

(** C7, amended: every line gets the one role whose rule is the first to
    hold (the seven rules are exhaustive and exclude each other), one block
    per line and at least one; the function raises a [ValueError] when some
    stripped line holds a control character (a code below 32 other than tab,
    line feed and carriage return), on the characters of this embedding only
    then, and otherwise returns a document with one paragraph per line; a
    text that is empty once stripped (empty,
    or white space only) gives exactly one block, a blank one, and the
    document of one empty paragraph. *)
Theorem classification_total :
  (forall raw r, classify raw = r <-> first_match r (Py.strip raw) = true)
  /\ (forall line, exists r, first_match r line = true
        /\ forall r', first_match r' line = true -> r' = r)
  /\ (forall content,
        render content <> []
        /\ List.length (render content) = List.length (lines_of content))
  /\ (forall content,
        create_word_document content = ValueError
        <-> existsb (fun l => has_control (Py.strip l)) (lines_of content)
            = true)
  /\ (forall content doc,
        create_word_document content = Built doc ->
        List.length (paragraphs doc) = List.length (render content))
  /\ render "" = [mkBlock "" blank]
  /\ (forall content, Py.strip content = "" ->
        render content = [mkBlock "" blank]
        /\ create_word_document content
           = Built (mkDocument 1 1 1 1 [empty_paragraph])).
Proof.
  split; [exact classify_first_match|].
  split.
  { intros line. destruct (first_match_exists line) as [r Hr].
    exists r. split; [exact Hr|]. intros r' Hr'.
    exact (first_match_unique line r' r Hr' Hr). }
  split.
  { intros content. split.
    - unfold render, lines_of. intros H. apply map_eq_nil in H.
      exact (split_not_nil _ _ H).
    - apply render_length. }
  split.
  { intros content. rewrite <- add_paragraphs_fails.
    unfold create_word_document.
    destruct (add_paragraphs (lines_of content)); split; intros; congruence. }
  split; [exact render_paragraphs|].
  split; [reflexivity|].
  intros content H. unfold render, create_word_document.
  rewrite (lines_of_blank content H). split; reflexivity.
Qed.

Lemma classification_total_witness :
  Py.strip (" " +:+ Py.LF +:+ "  ") = ""
  /\ render (" " +:+ Py.LF +:+ "  ") = [mkBlock "" blank].
Proof.
  split; [reflexivity|].
  apply (proj2 (proj2 (proj2 (proj2 (proj2 (proj2 classification_total)))))).
  reflexivity.
Defined.

End LayoutFacts.

(** ** Prompt builder of [src/main.py] *)

Module PromptFacts.
Import Params Chat AddressSpec.

Lemma append_cons (x : ascii) (a b : string) :
  String x a +:+ b = String x (a +:+ b).
Proof. reflexivity. Qed.

Lemma append_nil_l (b : string) : "" +:+ b = b.
Proof. reflexivity. Qed.

Lemma append_assoc (a b c : string) : (a +:+ b) +:+ c = a +:+ b +:+ c.
Proof.
  induction a as [|x a IH]; [reflexivity|].
  rewrite !append_cons, IH. reflexivity.
Qed.


Lemma bind_ok {A B : Type} (a : A) (k : A -> Result B) : bind (Ok a) k = k a.
Proof. reflexivity. Qed.

Lemma str_items_app (a b : list Value) :
  Main.str_items (a ++ b)
  = bind (Main.str_items a) (fun la =>
    bind (Main.str_items b) (fun lb => Ok (la ++ lb))).
Proof.
  induction a as [|[s|d] a IH]; simpl.
  - destruct (Main.str_items b); reflexivity.
  - rewrite IH. destruct (Main.str_items a); simpl; [|reflexivity].
    destruct (Main.str_items b); reflexivity.
  - reflexivity.
Qed.

Lemma populated_app (a b : list string) :
  populated (a ++ b) = populated a ++ populated b.
Proof. unfold populated. apply List.filter_app. Qed.

(** One guarded [append] adds the text of the field when it is not empty. *)
Lemma append_if_text (params : gmap string Value) (k : string)
    (parts : list Value) (l : list string) :
  text_field params k = true ->
  Main.str_items parts = Ok l ->
  Main.str_items (Main.append_if params k parts)
  = Ok (l ++ populated [segment params k]).
Proof.
  unfold text_field, Main.append_if, segment, populated. intros Ht Hl.
  destruct (params !! k) as [[s|d]|]; try discriminate; simpl.
  - destruct (Py.truthy s) eqn:Hs; simpl.
    + rewrite str_items_app, Hl. reflexivity.
    + rewrite Hl, app_nil_r. reflexivity.
  - rewrite Hl, app_nil_r. reflexivity.
Qed.

Lemma add_city_text (params : gmap string Value) :
  text_field params "city" = true ->
  Main.add_city params "" = Ok (segment params "city").
Proof.
  unfold text_field, Main.add_city, segment. intros Ht.
  destruct (params !! "city") as [[s|d]|]; try discriminate; simpl.
  - destruct s; reflexivity.
  - reflexivity.
Qed.

(** The address block when the joined fields hold text: the populated
    segments, one line break between neighbours. *)
Lemma recipient_address_text (params : gmap string Value) :
  address_is_text params = true ->
  Main.recipient_address params
  = Ok (Py.join Py.LF (populated (segments params))).
Proof.
  intros H. unfold address_is_text, text_keys in H. cbn [forallb] in H.
  apply andb_prop in H; destruct H as [Tc H].
  apply andb_prop in H; destruct H as [T1 H].
  apply andb_prop in H; destruct H as [T2 H].
  apply andb_prop in H; destruct H as [T3 H].
  apply andb_prop in H; destruct H as [Tcity _].
  assert (Hseg : populated (segments params)
                 = (((([] ++ populated [segment params "company_name"])
                      ++ populated [segment params "address_line1"])
                     ++ populated [segment params "address_line2"])
                    ++ populated [segment params "address_line3"])
                   ++ populated [city_segment params]).
  { unfold segments, populated. simpl.
    repeat match goal with |- context [Py.truthy ?x] => destruct (Py.truthy x) end;
      reflexivity. }
  rewrite Hseg. clear Hseg.
  pose proof (append_if_text params "company_name" [] [] Tc eq_refl) as H1.
  pose proof (append_if_text params "address_line1" _ _ T1 H1) as H2.
  pose proof (append_if_text params "address_line2" _ _ T2 H2) as H3.
  pose proof (append_if_text params "address_line3" _ _ T3 H3) as H4.
  unfold Main.recipient_address.
  rewrite add_city_text by assumption. rewrite bind_ok.
  change (Main.add_pincode params (segment params "city"))
    with (city_segment params).
  cbv zeta.
  unfold populated at 5. cbn [List.filter].
  destruct (Py.truthy (city_segment params)) eqn:Hc.
  - rewrite str_items_app, H4. reflexivity.
  - rewrite H4, app_nil_r. reflexivity.
Qed.

Lemma split_one_line (s : string) :
  one_line s = true -> Py.split "010"%char s = [s].
Proof.
  induction s as [|c s IH]; [reflexivity|].
  cbn [one_line Py.split]. intros H. apply andb_prop in H. destruct H as [Hc Hs].
  apply negb_true_iff in Hc. rewrite Hc, (IH Hs). reflexivity.
Qed.

Lemma split_app_lf (s t : string) :
  one_line s = true ->
  Py.split "010"%char (s +:+ String "010"%char t) = s :: Py.split "010"%char t.
Proof.
  induction s as [|c s IH]; [reflexivity|].
  cbn [one_line]. intros H. apply andb_prop in H. destruct H as [Hc Hs].
  apply negb_true_iff in Hc. rewrite append_cons. cbn [Py.split].
  rewrite Hc, (IH Hs). reflexivity.
Qed.

(** Splitting a joined list gives the list back when no item holds a line
    break: the join adds exactly one break between neighbours. *)
Lemma split_join (l : list string) :
  l <> [] -> forallb one_line l = true ->
  Py.split "010"%char (Py.join Py.LF l) = l.
Proof.
  induction l as [|x l IH]; [congruence|]. intros _ H.
  cbn [forallb] in H. apply andb_prop in H. destruct H as [Hx Hl].
  destruct l as [|y l].
  - apply split_one_line. exact Hx.
  - change (Py.join Py.LF (x :: y :: l))
      with (x +:+ String "010"%char (Py.join Py.LF (y :: l))).
    rewrite (split_app_lf _ _ Hx), IH; [reflexivity|discriminate|exact Hl].
Qed.

Lemma populated_truthy (l : list string) :
  forallb Py.truthy (populated l) = true.
Proof.
  induction l as [|x l IH]; [reflexivity|].
  unfold populated in *. cbn [List.filter].
  destruct (Py.truthy x) eqn:Hx; [|exact IH].
  cbn [forallb]. rewrite Hx, IH. reflexivity.
Qed.

Lemma address_is_empty_segments (params : gmap string Value) :
  address_is_empty params = true ->
  address_is_text params = true /\ populated (segments params) = [].
Proof.
  unfold address_is_empty, address_keys, text_keys, address_is_text, text_keys.
  cbn [app forallb]. unfold get_truthy, text_field, segments, city_segment,
    segment, section_if, populated.
  destruct (params !! "company_name") as [[[|? ?]|?]|];
    cbn; try discriminate;
  destruct (params !! "address_line1") as [[[|? ?]|?]|];
    cbn; try discriminate;
  destruct (params !! "address_line2") as [[[|? ?]|?]|];
    cbn; try discriminate;
  destruct (params !! "address_line3") as [[[|? ?]|?]|];
    cbn; try discriminate;
  destruct (params !! "city") as [[[|? ?]|?]|];
    cbn; try discriminate;
  destruct (params !! "pincode") as [[[|? ?]|?]|];
    cbn; try discriminate; intros _; split; reflexivity.
Qed.

(** The prompt is the header followed by the other sections. *)
Lemma prompt_text (env : Env) (params : gmap string Value) :
  address_is_text params = true ->
  Main._construct_loa_prompt env params
  = Ok (Main.header env params (Py.join Py.LF (populated (segments params)))
        +:+ Main.contact params +:+ Main.scenario params
        +:+ Main.specifics params +:+ Main.additional_terms params
        +:+ Main.signatory params +:+ Main.special_requirements params
        +:+ Main.style_guidance).
Proof.
  intros H. unfold Main._construct_loa_prompt.
  rewrite (recipient_address_text params H). reflexivity.
Qed.

Lemma header_reference (env : Env) (params : gmap string Value)
    (recipient rest : string) :
  occurs_in
    (ind8 +:+ "Reference Number: " +:+ Main.reference_number env params +:+ Py.LF)
    (Main.header env params recipient +:+ rest).
Proof.
  unfold occurs_in, Main.header, block. cbn [foldr].
  eexists (Py.LF +:+ ind8
           +:+ "Generate a Letter of Authorization (LOA) with the following details:"
           +:+ Py.LF +:+ ind8 +:+ "" +:+ Py.LF), _.
  rewrite !append_assoc. reflexivity.
Qed.

Lemma header_recipient (env : Env) (params : gmap string Value)
    (recipient rest : string) :
  occurs_in
    (ind8 +:+ "Recipient:" +:+ Py.LF +:+ ind8 +:+ recipient +:+ Py.LF)
    (Main.header env params recipient +:+ rest).
Proof.
  unfold occurs_in, Main.header, block. cbn [foldr].
  eexists (Py.LF +:+ ind8
           +:+ "Generate a Letter of Authorization (LOA) with the following details:"
           +:+ Py.LF +:+ ind8 +:+ "" +:+ Py.LF
           +:+ ind8 +:+ "Reference Number: " +:+ Main.reference_number env params
           +:+ Py.LF +:+ ind8 +:+ "Date: " +:+ Main.date_str env params
           +:+ Py.LF +:+ ind8 +:+ "" +:+ Py.LF), _.
  rewrite !append_assoc. reflexivity.
Qed.

(** C8: the recipient address block is the populated address segments (company
    name, address lines 1 to 3, city with its optional pincode suffix) joined
    by single line breaks, and this is the block the prompt carries under
    its Recipient heading; when the segments hold no line break of their own,
    the lines of the block are exactly the populated segments, so none is
    blank; when every address field is empty or absent, the block is the
    empty string. *)
Theorem recipient_address_joins_populated_segments :
  (forall params : gmap string Value,
     address_is_text params = true ->
     Main.recipient_address params
     = Ok (Py.join Py.LF (populated (segments params)))
     /\ (forall env, exists prompt,
           Main._construct_loa_prompt env params = Ok prompt
           /\ occurs_in
                (ind8 +:+ "Recipient:" +:+ Py.LF +:+ ind8
                 +:+ Py.join Py.LF (populated (segments params)) +:+ Py.LF)
                prompt)
     /\ (populated (segments params) <> [] ->
         forallb one_line (populated (segments params)) = true ->
         Py.split "010"%char (Py.join Py.LF (populated (segments params)))
         = populated (segments params)
         /\ forallb Py.truthy
              (Py.split "010"%char
                 (Py.join Py.LF (populated (segments params)))) = true))
  /\ (forall params : gmap string Value,
        address_is_empty params = true ->
        Main.recipient_address params = Ok "").
Proof.
  split.
  - intros params H. split; [exact (recipient_address_text params H)|]. split.
    + intros env. eexists. split; [exact (prompt_text env params H)|].
      apply header_recipient.
    + intros Hne Hone. rewrite (split_join _ Hne Hone).
      split; [reflexivity|apply populated_truthy].
  - intros params H. apply address_is_empty_segments in H.
    destruct H as [Ht He]. rewrite (recipient_address_text params Ht), He.
    reflexivity.
Qed.

Lemma recipient_address_witness :
  address_is_text sample_address = true
  /\ Main.recipient_address sample_address
     = Ok ("Wallop Advertising" +:+ Py.LF +:+ "Office No. 02" +:+ Py.LF
           +:+ "Mumbai - 400051").
Proof.
  split; [vm_compute; reflexivity|].
  pose proof (proj1 (proj1 recipient_address_joins_populated_segments
                       sample_address eq_refl)) as H.
  rewrite H. vm_compute. reflexivity.
Defined.

(** C9: when the parameter set has no reference number, the prompt carries
    the line Reference Number: LOA/<year>/<month>/<day> made from the
    current date (year on four digits, month and day on two); when it has
    one, the line carries that value as it is. *)
Theorem reference_number_default (env : Env) (params : gmap string Value) :
  address_is_text params = true ->
  exists prompt,
    Main._construct_loa_prompt env params = Ok prompt
    /\ (params !! "reference_number" = None ->
        occurs_in
          (ind8 +:+ "Reference Number: LOA/"
           +:+ zfill 4 (decimal (year (today env))) +:+ "/"
           +:+ zfill 2 (decimal (month (today env))) +:+ "/"
           +:+ zfill 2 (decimal (day (today env))) +:+ Py.LF)
          prompt)
    /\ (forall s, params !! "reference_number" = Some (VStr s) ->
        occurs_in (ind8 +:+ "Reference Number: " +:+ s +:+ Py.LF) prompt)
    /\ (forall d, params !! "reference_number" = Some (VDate d) ->
        occurs_in (ind8 +:+ "Reference Number: " +:+ isoformat d +:+ Py.LF)
          prompt).
Proof.
  intros H. eexists. split; [exact (prompt_text env params H)|]. split.
  - intros Hnone.
    pose proof (header_reference env params
                  (Py.join Py.LF (populated (segments params)))
                  (Main.contact params +:+ Main.scenario params
                   +:+ Main.specifics params +:+ Main.additional_terms params
                   +:+ Main.signatory params
                   +:+ Main.special_requirements params
                   +:+ Main.style_guidance)) as Hr.
    unfold Main.reference_number, get_default in Hr. rewrite Hnone in Hr.
    unfold strftime_Ymd in Hr. rewrite !append_assoc in Hr. exact Hr.
  - split; intros x Hs;
      pose proof (header_reference env params
                    (Py.join Py.LF (populated (segments params)))
                    (Main.contact params +:+ Main.scenario params
                     +:+ Main.specifics params +:+ Main.additional_terms params
                     +:+ Main.signatory params
                     +:+ Main.special_requirements params
                     +:+ Main.style_guidance)) as Hr;
      unfold Main.reference_number, get_default in Hr; rewrite Hs in Hr;
      exact Hr.
Qed.

Lemma reference_number_default_witness :
  address_is_text sample_address = true
  /\ exists prompt,
       Main._construct_loa_prompt (mkEnv (fun _ => Failure "") sample_date)
         sample_address = Ok prompt
       /\ occurs_in (ind8 +:+ "Reference Number: LOA/2026/11/04" +:+ Py.LF)
            prompt.
Proof.
  split; [vm_compute; reflexivity|].
  destruct (reference_number_default (mkEnv (fun _ => Failure "") sample_date)
              sample_address eq_refl) as [prompt [Hp [Hnone _]]].
  exists prompt. split; [exact Hp|]. exact (Hnone eq_refl).
Defined.

End PromptFacts.

(** ** Letter session *)

Module TranscriptFacts.
Import Chat.

Lemma requests_app (a b : list Message) :
  requests (a ++ b) = requests a + requests b.
Proof. unfold requests. rewrite List.filter_app, length_app. reflexivity. Qed.

Lemma responses_app (a b : list Message) :
  responses (a ++ b) = responses a + responses b.
Proof. unfold responses. rewrite List.filter_app, length_app. reflexivity. Qed.

Lemma answers_follow_request (h : list Message) (text : string) :
  forall b, answers_follow b (h ++ [mkMessage user text]) = answers_follow b h.
Proof.
  induction h as [|m h IH]; intros b; [reflexivity|].
  cbn [app answers_follow]. destruct (role m); rewrite ?IH; reflexivity.
Qed.

Lemma answers_follow_pair (h : list Message) (q r : string) :
  forall b,
    answers_follow b (h ++ [mkMessage user q; mkMessage assistant r])
    = answers_follow b h.
Proof.
  induction h as [|m h IH]; intros b; [reflexivity|].
  cbn [app answers_follow]. destruct (role m); rewrite ?IH; reflexivity.
Qed.

Lemma paired_pair (h : list Message) (q r : string) :
  paired h = true ->
  paired (h ++ [mkMessage user q; mkMessage assistant r]) = true.
Proof.
  revert h. fix IH 1. intros [|m1 [|m2 h]]; cbn [app paired]; intros H.
  - reflexivity.
  - discriminate.
  - apply andb_prop in H. destruct H as [H12 Hh]. rewrite H12. cbn [andb].
    apply IH. exact Hh.
Qed.

Lemma paired_interleaved (h : list Message) :
  paired h = true -> interleaved h = true /\ requests h = responses h.
Proof.
  unfold interleaved. revert h. fix IH 1. intros [|m1 [|m2 h]]; cbn [paired]; intros H.
  - split; reflexivity.
  - discriminate.
  - apply andb_prop in H. destruct H as [H12 Hh].
    apply andb_prop in H12. destruct H12 as [H1 H2].
    destruct (IH h Hh) as [Ha Hc].
    cbn [alternates negb]. rewrite H1, H2, Ha. split; [reflexivity|].
    unfold requests, responses in *. cbn [List.filter].
    unfold is_request, is_response in *.
    destruct (role m1), (role m2); try discriminate; cbn [List.length]; lia.
Qed.

End TranscriptFacts.

(** *** The Streamlit variant, [src/app.py] *)

Module AppFacts.
Import Params Chat Samples TranscriptFacts.

(** The three ways [edit_loa] ends. *)
Lemma app_edit_loa_cases (env : Env) (q : string) (self : LOAGenerator) :
  let st := App.edit_loa env q self in
  let request := request_of (App.with_edit self q) (App.edit_messages self q) in
  (no_current_loa self = true
   /\ st = mkStep (Returned no_loa_message) self [])
  \/ (no_current_loa self = false
      /\ exists str_e, create env request = Failure str_e
         /\ st = mkStep (Returned ("Error editing LOA: " +:+ str_e))
                   (App.with_edit self q) [request])
  \/ (no_current_loa self = false
      /\ exists text, create env request = Completion text
         /\ st = mkStep (Returned text)
                   (mkLOAGenerator (model self)
                      (conversation_history self
                       ++ [mkMessage user (edit_content q);
                           mkMessage assistant text])
                      (Some text))
                   [request]).
Proof.
  cbv zeta. unfold App.edit_loa.
  destruct (no_current_loa self) eqn:Hn; [left; split; reflexivity|right].
  destruct (create env _) as [text|str_e] eqn:Hc.
  - right. split; [reflexivity|]. exists text. split; [reflexivity|].
    cbn [App.with_edit conversation_history model].
    rewrite <- app_assoc. reflexivity.
  - left. split; [reflexivity|]. exists str_e. split; reflexivity.
Qed.

(** The two ways [generate_loa] ends. *)
Lemma app_generate_loa_cases (env : Env) (params : gmap string Value)
    (self : LOAGenerator) :
  let st := App.generate_loa env params self in
  let prompt := App._construct_loa_prompt env params in
  let request := request_of self (App.generate_messages self prompt) in
  (exists str_e, create env request = Failure str_e
     /\ st = mkStep (Returned ("Error generating LOA: " +:+ str_e)) self [request])
  \/ (exists text, create env request = Completion text
        /\ st = mkStep (Returned text)
                  (mkLOAGenerator (model self)
                     [mkMessage user prompt; mkMessage assistant text]
                     (Some text))
                  [request]).
Proof.
  cbv zeta. unfold App.generate_loa.
  destruct (create env _) as [text|str_e] eqn:Hc.
  - right. exists text. split; reflexivity.
  - left. exists str_e. split; reflexivity.
Qed.

Lemma app_step_well_formed (c : Call) (self : LOAGenerator) :
  well_formed (conversation_history self) ->
  well_formed (conversation_history (after (App.step c self))).
Proof.
  intros [Hle Hf]. destruct c as [env params|env q]; cbn [App.step].
  - destruct (app_generate_loa_cases env params self)
      as [[e [_ ->]]|[text [_ ->]]]; cbn [after conversation_history].
    + split; assumption.
    + split; [cbn; lia|reflexivity].
  - destruct (app_edit_loa_cases env q self)
      as [[_ ->]|[[_ [e [_ ->]]]|[_ [text [_ ->]]]]];
      cbn [after conversation_history App.with_edit].
    + split; assumption.
    + split.
      * rewrite requests_app, responses_app. cbn. lia.
      * rewrite answers_follow_request. exact Hf.
    + split.
      * rewrite requests_app, responses_app. cbn. lia.
      * rewrite answers_follow_pair. exact Hf.
Qed.

Lemma app_run_well_formed (calls : list Call) :
  forall self,
    well_formed (conversation_history self) ->
    well_formed (conversation_history (App.run calls self)).
Proof.
  induction calls as [|c calls IH]; intros self H; [exact H|].
  cbn [App.run]. apply IH. apply app_step_well_formed. exact H.
Qed.

(** An answered call leaves complete pairs. *)
Lemma app_step_answered_paired (c : Call) (self : LOAGenerator) (text : string) :
  answered (env_of c) (App.step c self) = Some text ->
  paired (conversation_history self) = true ->
  paired (conversation_history (after (App.step c self))) = true.
Proof.
  intros Ha Hp. destruct c as [env params|env q]; cbn [App.step env_of] in *.
  - destruct (app_generate_loa_cases env params self)
      as [[e [Hc Hst]]|[t [Hc Hst]]]; rewrite Hst in *;
      unfold answered in Ha; cbn [sent] in Ha; rewrite Hc in Ha.
    + discriminate.
    + reflexivity.
  - destruct (app_edit_loa_cases env q self)
      as [[_ Hst]|[[_ [e [Hc Hst]]]|[_ [t [Hc Hst]]]]]; rewrite Hst in *;
      unfold answered in Ha; cbn [sent] in Ha; try rewrite Hc in Ha;
      try discriminate.
    cbn [after conversation_history]. apply paired_pair. exact Hp.
Qed.

Lemma app_run_answered_paired (calls : list Call) :
  forall self final log,
    App.run_answered calls self = Some (final, log) ->
    paired (conversation_history self) = true ->
    paired (conversation_history final) = true.
Proof.
  induction calls as [|c calls IH]; intros self final log H Hp.
  - cbn in H. injection H as <- _. exact Hp.
  - cbn [App.run_answered] in H.
    destruct (answered (env_of c) (App.step c self)) as [text|] eqn:Ha;
      [|discriminate].
    destruct (sent (App.step c self)) as [|request [|? ?]]; try discriminate.
    destruct (App.run_answered calls (after (App.step c self)))
      as [[final' log']|] eqn:Hr; [|discriminate].
    injection H as <- _.
    apply (IH _ _ _ Hr). apply (app_step_answered_paired c self text Ha Hp).
Qed.

End AppFacts.

(** *** The command-line variant, [src/main.py] *)

Module MainFacts.
Import Params Chat Samples TranscriptFacts.

Lemma main_edit_loa_cases (env : Env) (q : string) (self : LOAGenerator) :
  let st := Main.edit_loa env q self in
  let request := request_of (Main.with_edit self q) (Main.edit_messages self q) in
  (no_current_loa self = true
   /\ st = mkStep (Returned no_loa_message) self [])
  \/ (no_current_loa self = false
      /\ exists str_e, create env request = Failure str_e
         /\ st = mkStep (Raised (ServiceError str_e))
                   (Main.with_edit self q) [request])
  \/ (no_current_loa self = false
      /\ exists text, create env request = Completion text
         /\ st = mkStep (Returned text)
                   (mkLOAGenerator (model self)
                      (conversation_history self
                       ++ [mkMessage user (edit_content q);
                           mkMessage assistant text])
                      (Some text))
                   [request]).
Proof.
  cbv zeta. unfold Main.edit_loa.
  destruct (no_current_loa self) eqn:Hn; [left; split; reflexivity|right].
  destruct (create env _) as [text|str_e] eqn:Hc.
  - right. split; [reflexivity|]. exists text. split; [reflexivity|].
    cbn [Main.with_edit conversation_history model].
    rewrite <- app_assoc. reflexivity.
  - left. split; [reflexivity|]. exists str_e. split; reflexivity.
Qed.

Lemma main_generate_loa_cases (env : Env) (params : gmap string Value)
    (self : LOAGenerator) :
  let st := Main.generate_loa env params self in
  (exists e, Main._construct_loa_prompt env params = Raise e
     /\ st = mkStep (Raised e) self [])
  \/ (exists prompt str_e,
        Main._construct_loa_prompt env params = Ok prompt
        /\ create env (request_of self (Main.generate_messages self prompt))
           = Failure str_e
        /\ st = mkStep (Raised (ServiceError str_e)) self
                  [request_of self (Main.generate_messages self prompt)])
  \/ (exists prompt text,
        Main._construct_loa_prompt env params = Ok prompt
        /\ create env (request_of self (Main.generate_messages self prompt))
           = Completion text
        /\ st = mkStep (Returned text)
                  (mkLOAGenerator (model self)
                     [mkMessage user prompt; mkMessage assistant text]
                     (Some text))
                  [request_of self (Main.generate_messages self prompt)]).
Proof.
  cbv zeta. unfold Main.generate_loa.
  destruct (Main._construct_loa_prompt env params) as [prompt|e] eqn:Hp.
  - right. destruct (create env _) as [text|str_e] eqn:Hc.
    + right. exists prompt, text. repeat split; assumption.
    + left. exists prompt, str_e. repeat split; assumption.
  - left. exists e. split; reflexivity.
Qed.

(** An answered generation: the prompt was built, the endpoint answered, and
    the transcript is the new pair alone. *)
Lemma main_generate_answered (env : Env) (params : gmap string Value)
    (self : LOAGenerator) (text : string) :
  answered env (Main.generate_loa env params self) = Some text ->
  exists prompt,
    Main._construct_loa_prompt env params = Ok prompt
    /\ Main.generate_loa env params self
       = mkStep (Returned text)
           (mkLOAGenerator (model self)
              [mkMessage user prompt; mkMessage assistant text] (Some text))
           [request_of self (Main.generate_messages self prompt)].
Proof.
  intros Ha.
  destruct (main_generate_loa_cases env params self)
    as [[e [Hp Hst]]|[[prompt [e [Hp [Hc Hst]]]]|[prompt [t [Hp [Hc Hst]]]]]];
    rewrite Hst in *; unfold answered in Ha; cbn [sent] in Ha;
    try rewrite Hc in Ha; try discriminate.
  injection Ha as ->. exists prompt. split; [exact Hp|reflexivity].
Qed.

(** An answered revision: there was a letter, the request carried the system
    directive and the whole transcript with the new instruction, and both
    Turns are appended. *)
Lemma main_edit_answered (env : Env) (q : string) (self : LOAGenerator)
    (text : string) :
  answered env (Main.edit_loa env q self) = Some text ->
  no_current_loa self = false
  /\ Main.edit_loa env q self
     = mkStep (Returned text)
         (mkLOAGenerator (model self)
            (conversation_history self
             ++ [mkMessage user (edit_content q); mkMessage assistant text])
            (Some text))
         [request_of (Main.with_edit self q)
            (mkMessage system _create_system_prompt
             :: conversation_history self
                ++ [mkMessage user (edit_content q)])].
Proof.
  intros Ha.
  destruct (main_edit_loa_cases env q self)
    as [[_ Hst]|[[_ [e [Hc Hst]]]|[Hn [t [Hc Hst]]]]];
    rewrite Hst in *; unfold answered in Ha; cbn [sent] in Ha;
    try rewrite Hc in Ha; try discriminate.
  injection Ha as ->. split; [exact Hn|reflexivity].
Qed.

Lemma main_step_well_formed (c : Call) (self : LOAGenerator) :
  well_formed (conversation_history self) ->
  well_formed (conversation_history (after (Main.step c self))).
Proof.
  intros [Hle Hf]. destruct c as [env params|env q]; cbn [Main.step].
  - destruct (main_generate_loa_cases env params self)
      as [[e [_ ->]]|[[prompt [e [_ [_ ->]]]]|[prompt [t [_ [_ ->]]]]]];
      cbn [after conversation_history].
    + split; assumption.
    + split; assumption.
    + split; [cbn; lia|reflexivity].
  - destruct (main_edit_loa_cases env q self)
      as [[_ ->]|[[_ [e [_ ->]]]|[_ [text [_ ->]]]]];
      cbn [after conversation_history Main.with_edit].
    + split; assumption.
    + split.
      * rewrite requests_app, responses_app. cbn. lia.
      * rewrite answers_follow_request. exact Hf.
    + split.
      * rewrite requests_app, responses_app. cbn. lia.
      * rewrite answers_follow_pair. exact Hf.
Qed.

Lemma main_run_well_formed (calls : list Call) :
  forall self,
    well_formed (conversation_history self) ->
    well_formed (conversation_history (Main.run calls self)).
Proof.
  induction calls as [|c calls IH]; intros self H; [exact H|].
  cbn [Main.run]. apply IH. apply main_step_well_formed. exact H.
Qed.

(** Answered calls one after the other. *)
Lemma main_run_answered_cons (c : Call) (calls : list Call) (self final : LOAGenerator)
    (log : list (ChatRequest * string)) :
  Main.run_answered (c :: calls) self = Some (final, log) ->
  exists request text log',
    answered (env_of c) (Main.step c self) = Some text
    /\ sent (Main.step c self) = [request]
    /\ Main.run_answered calls (after (Main.step c self)) = Some (final, log')
    /\ log = (request, text) :: log'.
Proof.
  cbn [Main.run_answered]. intros H.
  destruct (answered (env_of c) (Main.step c self)) as [text|] eqn:Ha;
    [|discriminate].
  destruct (sent (Main.step c self)) as [|request [|? ?]]; try discriminate.
  destruct (Main.run_answered calls (after (Main.step c self)))
    as [[final' log']|] eqn:Hr; [|discriminate].
  injection H as <- <-. exists request, text, log'. repeat split.
Qed.

Lemma main_run_answered_app (pre post : list Call) :
  forall self final log,
    Main.run_answered (pre ++ post) self = Some (final, log) ->
    exists mid log1 log2,
      Main.run_answered pre self = Some (mid, log1)
      /\ Main.run_answered post mid = Some (final, log2)
      /\ log = log1 ++ log2.
Proof.
  induction pre as [|c pre IH]; intros self final log H.
  - exists self, [], log. repeat split. exact H.
  - cbn [app] in H. apply main_run_answered_cons in H.
    destruct H as [request [text [log' [Ha [Hs [Hr ->]]]]]].
    destruct (IH _ _ _ Hr) as [mid [log1 [log2 [H1 [H2 ->]]]]].
    exists mid, ((request, text) :: log1), log2.
    cbn [Main.run_answered]. rewrite Ha, Hs, H1. repeat split. exact H2.
Qed.

(** Answered revisions append their pairs in call order, and each request
    carries the system directive followed by the transcript so far. *)
Lemma main_run_answered_edits (edits : list Call) :
  forall self final log,
    forallb is_edit edits = true ->
    Main.run_answered edits self = Some (final, log) ->
    conversation_history final
    = conversation_history self
      ++ edit_turns (combine (map edit_text edits) (map snd log))
    /\ List.length log = List.length edits
    /\ (forall request text, In (request, text) log ->
        exists more,
          req_messages request
          = mkMessage system _create_system_prompt
            :: conversation_history self ++ more).
Proof.
  induction edits as [|c edits IH]; intros self final log He H.
  - cbn in H. injection H as <- <-. cbn. rewrite app_nil_r.
    repeat split. intros ? ? [].
  - cbn [forallb] in He. apply andb_prop in He. destruct He as [Hc He].
    destruct c as [env params|env q]; [discriminate|].
    apply main_run_answered_cons in H.
    destruct H as [request [text [log' [Ha [Hs [Hr ->]]]]]].
    cbn [Main.step env_of] in *.
    destruct (main_edit_answered env q self text Ha) as [_ Hst].
    rewrite Hst in Hs, Hr. cbn [sent after] in Hs, Hr. injection Hs as <-.
    destruct (IH _ _ _ He Hr) as [Hh [Hl Hm]].
    cbn [conversation_history] in Hh, Hm.
    split; [|split].
    + rewrite Hh. cbn [map edit_text snd combine edit_turns].
      rewrite <- app_assoc. reflexivity.
    + cbn [List.length]. rewrite Hl. reflexivity.
    + intros request text' [Heq|Hin].
      * injection Heq as <- _. cbn [req_messages request_of]. eauto.
      * destruct (Hm _ _ Hin) as [more Hmore]. rewrite Hmore.
        rewrite <- app_assoc. eauto.
Qed.

(** The request of each answered revision, in full: the system directive, the
    transcript as it stands before the call, and the new edit request. *)
Lemma main_run_answered_edits_sent (edits : list Call) :
  forall self final log,
    forallb is_edit edits = true ->
    Main.run_answered edits self = Some (final, log) ->
    forall (i : nat) request text,
      log !! i = Some (request, text) ->
      exists q,
        map edit_text edits !! i = Some q
        /\ request
           = mkChatRequest (model self)
               (mkMessage system _create_system_prompt
                :: conversation_history self
                   ++ edit_turns
                        (take i (combine (map edit_text edits) (map snd log)))
                   ++ [mkMessage user (edit_content q)])
               2 2500.
Proof.
  induction edits as [|c edits IH]; intros self final log He H i request text Hi.
  - cbn in H. injection H as <- <-. destruct i; discriminate Hi.
  - cbn [forallb] in He. apply andb_prop in He. destruct He as [Hc He].
    destruct c as [env params|env q]; [discriminate|].
    apply main_run_answered_cons in H.
    destruct H as [request0 [text0 [log' [Ha [Hs [Hr ->]]]]]].
    cbn [Main.step env_of] in *.
    destruct (main_edit_answered env q self text0 Ha) as [_ Hst].
    rewrite Hst in Hs, Hr. cbn [sent after] in Hs, Hr. injection Hs as <-.
    destruct i as [|i].
    + cbn in Hi. injection Hi as <- <-. exists q. split; [reflexivity|].
      reflexivity.
    + cbn in Hi. destruct (IH _ _ _ He Hr i request text Hi) as [q' [Hq ->]].
      exists q'. split; [exact Hq|].
      cbn [model conversation_history map edit_text snd combine take edit_turns].
      rewrite <- !app_assoc. reflexivity.
Qed.

End MainFacts.

(** *** Statements on the session *)

Module SessionFacts.
Import Params Chat Samples TranscriptFacts.

(** C1, as the claim states it, fails on [src/main.py]: a failure of the
    endpoint during [generate_loa] or [edit_loa] leaves the method as an
    exception. *)
Lemma main_failure_is_raised :
  outcome (Main.generate_loa (failing "timeout") no_params init)
  = Raised (ServiceError "timeout")
  /\ outcome (Main.edit_loa (failing "timeout") "shorter"
                (Main.run [Generate (answering "first letter") no_params] init))
     = Raised (ServiceError "timeout").
Proof. split; vm_compute; reflexivity. Qed.

(** C1, amended: in [src/app.py] both operations always return text, and a
    failure of the endpoint is returned as the text Error generating LOA: or
    Error editing LOA: followed by the message of the exception; in
    [src/main.py] the same failure is raised to the caller. *)
Theorem app_failure_is_returned (env : Env) (self : LOAGenerator) :
  (forall params, exists text,
      outcome (App.generate_loa env params self) = Returned text)
  /\ (forall q, exists text,
        outcome (App.edit_loa env q self) = Returned text)
  /\ (forall params str_e,
        failed env (App.generate_loa env params self) = Some str_e ->
        outcome (App.generate_loa env params self)
        = Returned ("Error generating LOA: " +:+ str_e))
  /\ (forall q str_e,
        failed env (App.edit_loa env q self) = Some str_e ->
        outcome (App.edit_loa env q self)
        = Returned ("Error editing LOA: " +:+ str_e))
  /\ (forall params str_e,
        failed env (Main.generate_loa env params self) = Some str_e ->
        outcome (Main.generate_loa env params self)
        = Raised (ServiceError str_e))
  /\ (forall q str_e,
        failed env (Main.edit_loa env q self) = Some str_e ->
        outcome (Main.edit_loa env q self) = Raised (ServiceError str_e)).
Proof.
  repeat split.
  - intros params.
    destruct (AppFacts.app_generate_loa_cases env params self)
      as [[e [_ ->]]|[t [_ ->]]]; eexists; reflexivity.
  - intros q.
    destruct (AppFacts.app_edit_loa_cases env q self)
      as [[_ ->]|[[_ [e [_ ->]]]|[_ [t [_ ->]]]]]; eexists; reflexivity.
  - intros params str_e.
    destruct (AppFacts.app_generate_loa_cases env params self)
      as [[e [Hc ->]]|[t [Hc ->]]]; unfold failed; cbn [sent outcome];
      rewrite Hc; intros H; [injection H as ->; reflexivity|discriminate].
  - intros q str_e.
    destruct (AppFacts.app_edit_loa_cases env q self)
      as [[_ ->]|[[_ [e [Hc ->]]]|[_ [t [Hc ->]]]]]; unfold failed;
      cbn [sent outcome]; try rewrite Hc; intros H; try discriminate.
    injection H as ->. reflexivity.
  - intros params str_e.
    destruct (MainFacts.main_generate_loa_cases env params self)
      as [[e [_ ->]]|[[p [e [_ [Hc ->]]]]|[p [t [_ [Hc ->]]]]]]; unfold failed;
      cbn [sent outcome]; try rewrite Hc; intros H; try discriminate.
    injection H as ->. reflexivity.
  - intros q str_e.
    destruct (MainFacts.main_edit_loa_cases env q self)
      as [[_ ->]|[[_ [e [Hc ->]]]|[_ [t [Hc ->]]]]]; unfold failed;
      cbn [sent outcome]; try rewrite Hc; intros H; try discriminate.
    injection H as ->. reflexivity.
Qed.

Lemma app_failure_is_returned_witness :
  failed (failing "timeout") (App.generate_loa (failing "timeout") no_params init)
  = Some "timeout"
  /\ outcome (App.generate_loa (failing "timeout") no_params init)
     = Returned "Error generating LOA: timeout".
Proof.
  split; [vm_compute; reflexivity|].
  apply (proj1 (proj2 (proj2 (app_failure_is_returned (failing "timeout") init)))
           no_params "timeout").
  vm_compute. reflexivity.
Defined.

(** C2: on a generator with no current letter, [edit_loa] returns the fixed
    message, sends nothing to the endpoint and changes nothing, whatever the
    instruction and whatever the endpoint would have done; so in both files. *)
Theorem edit_without_letter (env : Env) (edit_request : string)
    (self : LOAGenerator) :
  current_loa self = None ->
  App.edit_loa env edit_request self
  = mkStep
      (Returned "No LOA has been generated yet. Please generate an LOA first.")
      self []
  /\ Main.edit_loa env edit_request self
     = mkStep
         (Returned "No LOA has been generated yet. Please generate an LOA first.")
         self [].
Proof.
  intros H. unfold App.edit_loa, Main.edit_loa, no_current_loa. rewrite H.
  split; reflexivity.
Qed.

Lemma edit_without_letter_witness :
  current_loa init = None
  /\ sent (App.edit_loa (answering "a letter") "shorter" init) = []
  /\ sent (Main.edit_loa (answering "a letter") "shorter" init) = [].
Proof.
  split; [reflexivity|].
  destruct (edit_without_letter (answering "a letter") "shorter" init eq_refl)
    as [-> ->].
  split; reflexivity.
Defined.

(** C3: from a fresh generator, an answered [generate_loa] followed by an
    answered [edit_loa] leaves the transcript request, response, request,
    response (two of each, strictly alternating), and the current letter is
    the text of the second response. *)
Theorem generate_then_edit (env1 env2 : Env) (params : gmap string Value)
    (edit_request text1 text2 : string) :
  answered env1 (Main.generate_loa env1 params init) = Some text1 ->
  answered env2
    (Main.edit_loa env2 edit_request
       (after (Main.generate_loa env1 params init))) = Some text2 ->
  let final :=
    after (Main.edit_loa env2 edit_request
             (after (Main.generate_loa env1 params init))) in
  exists prompt,
    Main._construct_loa_prompt env1 params = Ok prompt
    /\ conversation_history final
       = [ mkMessage user prompt; mkMessage assistant text1;
           mkMessage user (edit_content edit_request);
           mkMessage assistant text2 ]
    /\ requests (conversation_history final) = 2
    /\ responses (conversation_history final) = 2
    /\ interleaved (conversation_history final) = true
    /\ current_loa final = Some text2.
Proof.
  intros H1 H2. cbv zeta.
  destruct (MainFacts.main_generate_answered env1 params init text1 H1)
    as [prompt [Hp Hst1]].
  rewrite Hst1 in *. cbn [after] in *.
  destruct (MainFacts.main_edit_answered env2 edit_request _ text2 H2) as [_ Hst2].
  rewrite Hst2. cbn [after conversation_history current_loa app].
  exists prompt. repeat split. exact Hp.
Qed.

Lemma generate_then_edit_witness :
  current_loa
    (after (Main.edit_loa (answering "second letter") "shorter"
              (after (Main.generate_loa (answering "first letter") no_params
                        init))))
  = Some "second letter".
Proof.
  destruct (generate_then_edit (answering "first letter")
              (answering "second letter") no_params "shorter"
              "first letter" "second letter" eq_refl eq_refl)
    as [prompt [_ [_ [_ [_ [_ H]]]]]].
  exact H.
Defined.

(** C4, as the claim states it, fails on [src/app.py]: a failed revision
    leaves its request in the transcript, so the request of the next revision
    comes right after it and the strict alternation is lost. *)
Lemma failed_edit_breaks_interleaving :
  map role (conversation_history (App.run generate_fail_edit init))
  = [user; assistant; user; user; assistant]
  /\ interleaved (conversation_history (App.run generate_fail_edit init))
     = false.
Proof. split; vm_compute; reflexivity. Qed.

(** C4, amended: after any sequence of calls of [src/app.py], failed ones
    included, the transcript holds no more response Turns than request Turns,
    and every response Turn comes right after a request Turn (two request
    Turns may be neighbours after a failed revision); when every call of the
    sequence was answered, the Turns alternate strictly, request then
    response, as many of each. *)
Theorem responses_follow_requests (calls : list Call) :
  responses (conversation_history (App.run calls init))
  <= requests (conversation_history (App.run calls init))
  /\ answers_follow false (conversation_history (App.run calls init)) = true
  /\ (forall final log,
        App.run_answered calls init = Some (final, log) ->
        interleaved (conversation_history final) = true
        /\ requests (conversation_history final)
           = responses (conversation_history final)).
Proof.
  assert (H0 : well_formed (conversation_history init))
    by (split; [apply Nat.le_refl|reflexivity]).
  destruct (AppFacts.app_run_well_formed calls init H0) as [Hle Hf].
  split; [exact Hle|]. split; [exact Hf|].
  intros final log H. apply paired_interleaved.
  apply (AppFacts.app_run_answered_paired calls init final log H). reflexivity.
Qed.

Lemma responses_follow_requests_witness :
  exists final log,
    App.run_answered generate_edit init = Some (final, log)
    /\ interleaved (conversation_history final) = true.
Proof.
  destruct (App.run_answered generate_edit init) as [[final log]|] eqn:H;
    [|vm_compute in H; discriminate].
  exists final, log. split; [reflexivity|].
  apply (proj2 (proj2 (responses_follow_requests generate_edit)) final log H).
Defined.

(** C5, as the claim states it, fails on [src/main.py]: a second
    [generate_loa] stores the new pair in place of the transcript, so the Turns
    of the first generation are gone. *)
Lemma second_generate_drops_turns :
  has_response "first letter"
    (conversation_history
       (Main.run [Generate (answering "first letter") no_params] init)) = true
  /\ has_response "first letter"
       (conversation_history (Main.run generate_twice init)) = false
  /\ map role (conversation_history (Main.run generate_twice init))
     = [user; assistant].
Proof. repeat split; vm_compute; reflexivity. Qed.

(** C5, amended: an answered [generate_loa] replaces the transcript by its
    own Turn pair; an answered [edit_loa] appends its request and its response.
    So after answered calls the last of which to generate is followed by
    revisions only, the transcript is the pair of that generation followed by
    the pairs of the revisions in call order, nothing reordered or dropped
    among them, and the message list sent on each of these revisions is,
    exactly, the system directive, then the complete transcript as it stands
    before the call (the pair of that generation and the pairs of the earlier
    revisions), then the new edit request. *)
Theorem successful_calls_transcript (pre : list Call) (env : Env)
    (params : gmap string Value) (edits : list Call)
    (self final : LOAGenerator) (log : list (ChatRequest * string)) :
  forallb is_edit edits = true ->
  Main.run_answered (pre ++ Generate env params :: edits) self
  = Some (final, log) ->
  exists prompt log_pre request0 text0 log_edits,
    Main._construct_loa_prompt env params = Ok prompt
    /\ log = log_pre ++ (request0, text0) :: log_edits
    /\ List.length log_edits = List.length edits
    /\ conversation_history final
       = [mkMessage user prompt; mkMessage assistant text0]
         ++ edit_turns (combine (map edit_text edits) (map snd log_edits))
    /\ (forall request text, In (request, text) log_edits ->
        exists more,
          req_messages request
          = mkMessage system _create_system_prompt
            :: mkMessage user prompt :: mkMessage assistant text0 :: more)
    /\ (forall (i : nat) request text,
          log_edits !! i = Some (request, text) ->
          exists q,
            map edit_text edits !! i = Some q
            /\ req_messages request
               = mkMessage system _create_system_prompt
                 :: [mkMessage user prompt; mkMessage assistant text0]
                    ++ edit_turns
                         (take i (combine (map edit_text edits)
                                    (map snd log_edits)))
                    ++ [mkMessage user (edit_content q)]).
Proof.
  intros He H.
  apply MainFacts.main_run_answered_app in H.
  destruct H as [mid [log_pre [log2 [_ [H ->]]]]].
  apply MainFacts.main_run_answered_cons in H.
  destruct H as [request0 [text0 [log_edits [Ha [_ [Hr ->]]]]]].
  cbn [Main.step env_of] in *.
  destruct (MainFacts.main_generate_answered env params mid text0 Ha)
    as [prompt [Hp Hst]].
  rewrite Hst in Hr. cbn [after] in Hr.
  destruct (MainFacts.main_run_answered_edits edits _ _ _ He Hr) as [Hh [Hl Hm]].
  pose proof (MainFacts.main_run_answered_edits_sent edits _ _ _ He Hr) as Hx.
  cbn [conversation_history] in Hh, Hm, Hx.
  exists prompt, log_pre, request0, text0, log_edits.
  split; [exact Hp|]. split; [reflexivity|]. split; [exact Hl|].
  split; [exact Hh|]. split; [exact Hm|].
  intros i request text Hi. destruct (Hx i request text Hi) as [q [Hq ->]].
  exists q. split; [exact Hq|reflexivity].
Qed.

Lemma successful_calls_transcript_witness :
  exists final log,
    Main.run_answered generate_edit init = Some (final, log)
    /\ List.length (conversation_history final) = 4.
Proof.
  destruct (Main.run_answered generate_edit init) as [[final log]|] eqn:H;
    [|vm_compute in H; discriminate].
  exists final, log. split; [reflexivity|].
  destruct (successful_calls_transcript [] (answering "first letter") no_params
              [Edit (answering "second letter") "shorter"] init final log
              eq_refl H)
    as [prompt [lp [r0 [t0 [le [_ [_ [Hl [Hh _]]]]]]]]].
  rewrite Hh. cbn [app List.length].
  destruct le as [|x [|y le]]; try discriminate. reflexivity.
Defined.

(** C10, as the claim states it, fails on [src/app.py]: on an active session
    whose last revision already failed, a second failed revision leaves three
    request Turns for one response Turn, two more and not one more. *)
Lemma second_failed_edit_two_more :
  no_current_loa (App.run generate_fail init) = false
  /\ failed (failing "timeout")
       (App.edit_loa (failing "timeout") "shorter" (App.run generate_fail init))
     = Some "timeout"
  /\ requests
       (conversation_history
          (after (App.edit_loa (failing "timeout") "shorter"
                    (App.run generate_fail init)))) = 3
  /\ responses
       (conversation_history
          (after (App.edit_loa (failing "timeout") "shorter"
                    (App.run generate_fail init)))) = 1.
Proof. repeat split; vm_compute; reflexivity. Qed.

(** C10, amended: when the endpoint fails inside [edit_loa] on an active
    session, the current letter is unchanged, the error text is returned, and
    the edit request stays in the transcript with no response after it: one
    request Turn more than before and as many response Turns, hence exactly
    one more request than response Turns when the transcript was balanced
    before the call. *)
Theorem failed_edit_keeps_letter (env : Env) (edit_request : string)
    (self : LOAGenerator) (str_e : string) :
  no_current_loa self = false ->
  failed env (App.edit_loa env edit_request self) = Some str_e ->
  let st := App.edit_loa env edit_request self in
  outcome st = Returned ("Error editing LOA: " +:+ str_e)
  /\ current_loa (after st) = current_loa self
  /\ conversation_history (after st)
     = conversation_history self ++ [mkMessage user (edit_content edit_request)]
  /\ requests (conversation_history (after st))
     = requests (conversation_history self) + 1
  /\ responses (conversation_history (after st))
     = responses (conversation_history self)
  /\ (requests (conversation_history self)
      = responses (conversation_history self) ->
      requests (conversation_history (after st))
      = responses (conversation_history (after st)) + 1).
Proof.
  intros Hn Hf. cbv zeta.
  destruct (AppFacts.app_edit_loa_cases env edit_request self)
    as [[Hn' _]|[[_ [e [Hc Hst]]]|[_ [t [Hc Hst]]]]].
  - congruence.
  - rewrite Hst in *. unfold failed in Hf. cbn [sent] in Hf. rewrite Hc in Hf.
    injection Hf as ->.
    cbn [outcome after App.with_edit conversation_history current_loa].
    rewrite requests_app, responses_app. cbn.
    repeat split; lia.
  - rewrite Hst in Hf. unfold failed in Hf. cbn [sent] in Hf. rewrite Hc in Hf.
    discriminate.
Qed.

Lemma failed_edit_keeps_letter_witness :
  current_loa
    (after (App.edit_loa (failing "timeout") "shorter"
              (App.run [Generate (answering "first letter") no_params] init)))
  = Some "first letter".
Proof.
  destruct (failed_edit_keeps_letter (failing "timeout") "shorter"
              (App.run [Generate (answering "first letter") no_params] init)
              "timeout" eq_refl eq_refl)
    as [_ [H _]].
  rewrite H. reflexivity.
Defined.

End SessionFacts.

(** ** More on the layout renderer *)

Module StripFacts.
Import LayoutSpec.

Lemma rstrip_nonspace (c : ascii) (s : string) :
  Py.isspace c = false -> Py.rstrip (String c s) = String c (Py.rstrip s).
Proof.
  intros H. cbn [Py.rstrip]. rewrite H. destruct (Py.rstrip s); reflexivity.
Qed.

Lemma rstrip_idem (s : string) : Py.rstrip (Py.rstrip s) = Py.rstrip s.
Proof.
  induction s as [|c s IH]; [reflexivity|].
  cbn [Py.rstrip]. destruct (Py.rstrip s) as [|d r] eqn:Hr.
  - destruct (Py.isspace c) eqn:Hc; [reflexivity|].
    cbn [Py.rstrip]. rewrite Hc. reflexivity.
  - cbn [Py.rstrip]. cbn [Py.rstrip] in IH. rewrite IH. reflexivity.
Qed.

Lemma lstrip_starts_nonspace (s : string) : starts_nonspace (Py.lstrip s).
Proof.
  induction s as [|c s IH]; [exact I|].
  cbn [Py.lstrip]. destruct (Py.isspace c) eqn:Hc; [exact IH|exact Hc].
Qed.

Lemma lstrip_id (s : string) : starts_nonspace s -> Py.lstrip s = s.
Proof.
  destruct s as [|c s]; [reflexivity|]. cbn [starts_nonspace Py.lstrip].
  intros ->. reflexivity.
Qed.

Lemma rstrip_starts_nonspace (s : string) :
  starts_nonspace s -> starts_nonspace (Py.rstrip s).
Proof.
  destruct s as [|c s]; [intros; exact I|]. cbn [starts_nonspace]. intros H.
  rewrite (rstrip_nonspace c s H). exact H.
Qed.

Lemma strip_starts_nonspace (s : string) : starts_nonspace (Py.strip s).
Proof. apply rstrip_starts_nonspace, lstrip_starts_nonspace. Qed.

Lemma strip_idem (s : string) : Py.strip (Py.strip s) = Py.strip s.
Proof.
  unfold Py.strip at 1. rewrite (lstrip_id _ (strip_starts_nonspace s)).
  unfold Py.strip. apply rstrip_idem.
Qed.

Lemma lstrip_all_space (w : string) : all_space w = true -> Py.lstrip w = "".
Proof.
  induction w as [|c w IH]; [reflexivity|]. cbn [all_space Py.lstrip].
  intros H. apply andb_prop in H. destruct H as [-> Hw]. exact (IH Hw).
Qed.

Lemma rstrip_all_space (w : string) : all_space w = true -> Py.rstrip w = "".
Proof.
  induction w as [|c w IH]; [reflexivity|]. cbn [all_space Py.rstrip].
  intros H. apply andb_prop in H. destruct H as [Hc Hw].
  rewrite (IH Hw), Hc. reflexivity.
Qed.

Lemma lstrip_app_space (w s : string) :
  all_space w = true -> Py.lstrip (w +:+ s) = Py.lstrip s.
Proof.
  induction w as [|c w IH]; [reflexivity|]. cbn [all_space].
  intros H. apply andb_prop in H. destruct H as [Hc Hw].
  rewrite PromptFacts.append_cons. cbn [Py.lstrip]. rewrite Hc. exact (IH Hw).
Qed.

Lemma lstrip_app (s w : string) :
  all_space s = false -> Py.lstrip (s +:+ w) = Py.lstrip s +:+ w.
Proof.
  induction s as [|c s IH]; [discriminate|]. cbn [all_space]. intros H.
  rewrite PromptFacts.append_cons. cbn [Py.lstrip].
  destruct (Py.isspace c) eqn:Hc.
  - apply IH. exact H.
  - rewrite PromptFacts.append_cons. reflexivity.
Qed.

Lemma rstrip_app_space (s w : string) :
  all_space w = true -> Py.rstrip (s +:+ w) = Py.rstrip s.
Proof.
  intros Hw. induction s as [|c s IH].
  - rewrite PromptFacts.append_nil_l. apply rstrip_all_space. exact Hw.
  - rewrite PromptFacts.append_cons. cbn [Py.rstrip]. rewrite IH. reflexivity.
Qed.

(** White space around a text does not count. *)
Lemma strip_surrounding (w1 s w2 : string) :
  all_space w1 = true -> all_space w2 = true ->
  Py.strip (w1 +:+ s +:+ w2) = Py.strip s.
Proof.
  intros H1 H2. unfold Py.strip. rewrite (lstrip_app_space w1 _ H1).
  destruct (all_space s) eqn:Hs.
  - rewrite (lstrip_app_space s w2 Hs), (lstrip_all_space w2 H2),
      (lstrip_all_space s Hs). reflexivity.
  - rewrite (lstrip_app s w2 Hs). apply rstrip_app_space. exact H2.
Qed.

Lemma isspace_not_lf (c : ascii) :
  Py.isspace c = false -> Ascii.eqb c "010"%char = false.
Proof.
  intros H. destruct (Ascii.eqb c "010"%char) eqn:E; [|reflexivity].
  apply Ascii.eqb_eq in E. subst c. discriminate H.
Qed.

Lemma strip_cons_nonspace (c : ascii) (w : string) :
  Py.isspace c = false -> Py.strip (String c w) = String c (Py.rstrip w).
Proof.
  intros H. unfold Py.strip. cbn [Py.lstrip]. rewrite H.
  apply rstrip_nonspace. exact H.
Qed.

Lemma strip_cons_space (c : ascii) (w : string) :
  Py.isspace c = true -> Py.strip (String c w) = Py.strip w.
Proof. intros H. unfold Py.strip. cbn [Py.lstrip]. rewrite H. reflexivity. Qed.

Lemma length_split (sep : ascii) (s : string) :
  List.length (Py.split sep s) = S (count_char sep s).
Proof.
  induction s as [|c s IH]; [reflexivity|]. cbn [Py.split count_char].
  destruct (Ascii.eqb c sep).
  - cbn [List.length]. rewrite IH. reflexivity.
  - destruct (Py.split sep s) as [|w ws]; cbn [List.length] in *; lia.
Qed.

(** The first line of a text that starts with a visible character is not
    blank. *)
Lemma first_line_visible (t : string) :
  t <> "" -> starts_nonspace t ->
  Py.truthy (Py.strip (List.hd "" (Py.split "010"%char t))) = true.
Proof.
  destruct t as [|c t]; [congruence|]. intros _ Hc. cbn [starts_nonspace] in Hc.
  cbn [Py.split]. rewrite (isspace_not_lf c Hc).
  destruct (Py.split "010"%char t) as [|w ws]; cbn [List.hd];
    rewrite (strip_cons_nonspace _ _ Hc); reflexivity.
Qed.

(** The last line of a text that ends with a visible character is not
    blank. *)
Lemma last_line_visible (t : string) :
  t <> "" -> Py.rstrip t = t ->
  Py.truthy (Py.strip (List.last (Py.split "010"%char t) "")) = true.
Proof.
  induction t as [|c t IH]; [congruence|]. intros _ H.
  cbn [Py.rstrip] in H. destruct (Py.rstrip t) as [|d r] eqn:Hr.
  - destruct (Py.isspace c) eqn:Hc; [discriminate|].
    injection H as <-. cbn [Py.split]. rewrite (isspace_not_lf c Hc).
    cbn [List.last]. rewrite (strip_cons_nonspace _ _ Hc). reflexivity.
  - injection H as H. assert (Ht : t <> "") by (rewrite <- H; discriminate).
    specialize (IH Ht H). clear Hr.
    pose proof (LayoutFacts.split_not_nil "010"%char t) as Hne.
    cbn [Py.split]. destruct (Ascii.eqb c "010"%char) eqn:E.
    + destruct (Py.split "010"%char t) as [|w ws]; [congruence|]. exact IH.
    + destruct (Py.split "010"%char t) as [|w ws]; [congruence|].
      destruct ws as [|w' ws]; [|exact IH].
      cbn [List.last] in *.
      destruct (Py.isspace c) eqn:Hc.
      * rewrite (strip_cons_space _ _ Hc). exact IH.
      * rewrite (strip_cons_nonspace _ _ Hc). reflexivity.
Qed.

End StripFacts.

Module LayoutMore.
Import Layout LayoutSpec StripFacts.










(** White space around the text, blank lines included, changes neither the
    blocks nor the document. *)
Theorem surrounding_space_ignored (before content after : string) :
  all_space before = true -> all_space after = true ->
  render (before +:+ content +:+ after) = render content
  /\ create_word_document (before +:+ content +:+ after)
     = create_word_document content.
Proof.
  intros H1 H2. unfold render, create_word_document, lines_of.
  rewrite (strip_surrounding before content after H1 H2).
  split; reflexivity.
Qed.

Lemma surrounding_space_ignored_witness :
  render ((Py.LF +:+ " ") +:+ "Terms:" +:+ (" " +:+ Py.LF +:+ Py.LF))
  = [mkBlock "Terms:" section_header].
Proof.
  rewrite (proj1 (surrounding_space_ignored (Py.LF +:+ " ") "Terms:"
                    (" " +:+ Py.LF +:+ Py.LF) eq_refl eq_refl)).
  reflexivity.
Defined.

(** There is one block per line of the stripped text, one more than it has
    line breaks, and the document, when it is built, has as many paragraphs:
    never none. *)
Theorem paragraph_count (content : string) :
  List.length (render content) = S (count_char "010"%char (Py.strip content))
  /\ (forall doc,
        create_word_document content = Built doc ->
        List.length (paragraphs doc)
        = S (count_char "010"%char (Py.strip content))).
Proof.
  assert (Hr : List.length (render content)
               = S (count_char "010"%char (Py.strip content))).
  { unfold render, lines_of. rewrite length_map, length_split. reflexivity. }
  split; [exact Hr|]. intros doc H.
  rewrite (LayoutFacts.render_paragraphs content doc H). exact Hr.
Qed.

Lemma classify_blank (raw : string) :
  classify raw = blank <-> Py.truthy (Py.strip raw) = false.
Proof.
  rewrite LayoutFacts.classify_first_match. cbn [first_match].
  unfold is_blank. destruct (Py.truthy (Py.strip raw)); cbn [negb]; split;
    intros; congruence.
Qed.

Lemma last_of_map {A B : Type} (f : A -> B) (l : list A) (d : A) :
  List.last (map f l) (f d) = f (List.last l d).
Proof.
  induction l as [|x l IH]; [reflexivity|].
  destruct l as [|y l]; [reflexivity|]. exact IH.
Qed.

(** A text that is not blank never opens or closes with a blank block: the
    first and the last block hold visible text. *)
Theorem no_blank_at_the_ends (content : string) :
  Py.strip content <> "" ->
  role (List.hd no_block (render content)) <> blank
  /\ role (List.last (render content) no_block) <> blank.
Proof.
  intros Hne. unfold render, lines_of.
  pose proof (first_line_visible (Py.strip content) Hne
                (strip_starts_nonspace content)) as Hfirst.
  assert (Hr : Py.rstrip (Py.strip content) = Py.strip content)
    by (unfold Py.strip; apply rstrip_idem).
  pose proof (last_line_visible (Py.strip content) Hne Hr) as Hlast.
  pose proof (LayoutFacts.split_not_nil "010"%char (Py.strip content)) as Hnil.
  destruct (Py.split "010"%char (Py.strip content)) as [|l ls] eqn:Hs;
    [congruence|].
  split.
  - cbn [map List.hd role]. cbn [List.hd] in Hfirst.
    intros Hb. apply classify_blank in Hb. congruence.
  - change no_block
      with ((fun l => mkBlock (Py.strip l) (classify l)) "").
    rewrite last_of_map. cbn [role].
    intros Hb. apply classify_blank in Hb. congruence.
Qed.

Lemma no_blank_at_the_ends_witness :
  role (List.last (render example_letter) no_block) <> blank.
Proof.
  apply (proj2 (no_blank_at_the_ends example_letter
                  ltac:(vm_compute; discriminate))).
Defined.

End LayoutMore.

Module CaseFacts.
Import Layout LayoutSpec StripFacts.



Lemma lower_char_idem (c : ascii) :
  Py.lower_char (Py.lower_char c) = Py.lower_char c.
Proof. destruct c as [[] [] [] [] [] [] [] []]; reflexivity. Qed.

Lemma lower_idem (s : string) : Py.lower (Py.lower s) = Py.lower s.
Proof.
  induction s as [|c s IH]; [reflexivity|]. cbn [Py.lower].
  rewrite lower_char_idem, IH. reflexivity.
Qed.











Lemma strip_dear (c1 c2 c3 c4 : ascii) (rest : string) :
  Py.isspace c1 = false -> Py.isspace c2 = false ->
  Py.isspace c3 = false -> Py.isspace c4 = false ->
  Py.strip (String c1 (String c2 (String c3 (String c4 rest))))
  = String c1 (String c2 (String c3 (String c4 (Py.rstrip rest)))).
Proof.
  intros H1 H2 H3 H4. rewrite (strip_cons_nonspace _ _ H1).
  rewrite (rstrip_nonspace _ _ H2), (rstrip_nonspace _ _ H3),
    (rstrip_nonspace _ _ H4). reflexivity.
Qed.

(** The salutation test looks for dear and the closing test for yours, each
    followed by a space, on the stripped line: Dear or Yours with nothing
    visible after it has lost that space and is a body line. *)
Theorem bare_dear_is_body (rest : string) :
  classify ("Dear " +:+ rest)
  = (if Py.truthy (Py.rstrip rest) then salutation else body)
  /\ classify ("Yours " +:+ rest)
     = (if Py.truthy (Py.rstrip rest) then closing else body).
Proof.
  rewrite !PromptFacts.append_cons, !PromptFacts.append_nil_l.
  unfold classify, process_line. split.
  - rewrite strip_dear by reflexivity. cbn [Py.rstrip].
    destruct (Py.rstrip rest) as [|d r]; reflexivity.
  - rewrite strip_dear by reflexivity.
    rewrite (rstrip_nonspace "s" _ eq_refl). cbn [Py.rstrip].
    destruct (Py.rstrip rest) as [|d r]; reflexivity.
Qed.

Lemma strip_five (c1 c2 c3 c4 c5 : ascii) (rest : string) :
  Py.isspace c1 = false -> Py.isspace c2 = false ->
  Py.isspace c3 = false -> Py.isspace c4 = false -> Py.isspace c5 = false ->
  Py.strip (String c1 (String c2 (String c3 (String c4 (String c5 rest)))))
  = String c1 (String c2 (String c3 (String c4 (String c5 (Py.rstrip rest))))).
Proof.
  intros H1 H2 H3 H4 H5. rewrite strip_dear by assumption.
  rewrite (rstrip_nonspace _ _ H5). reflexivity.
Qed.

(** The prefix Date: is looked for as written, Ref: through [lower]: whatever
    follows, a line starting with Date: or with REF: is a reference-or-date
    line, and one starting with date: is not: it is a section header when
    short and ended by a colon, a body line otherwise. *)
Theorem date_prefix_is_case_sensitive (rest : string) :
  classify ("Date:" +:+ rest) = reference_or_date
  /\ classify ("REF:" +:+ rest) = reference_or_date
  /\ classify ("date:" +:+ rest)
     = (if is_section_header ("date:" +:+ Py.rstrip rest)
        then section_header else body).
Proof.
  rewrite !PromptFacts.append_cons, !PromptFacts.append_nil_l.
  unfold classify, process_line. repeat split.
  - rewrite strip_five by reflexivity.
    destruct (Py.rstrip rest); reflexivity.
  - rewrite strip_dear by reflexivity.
    destruct (Py.rstrip rest); reflexivity.
  - rewrite strip_five by reflexivity.
    destruct (is_section_header _); reflexivity.
Qed.

(** The salutation words sir and madam carry no space, and the tests come
    before the one for section headers: whatever follows Sir or Madam, the
    line is a salutation, and a line starting with Subject: or Regards is a
    subject or a closing even when it is short and ends with a colon. *)
Theorem keyword_prefix_decides (rest : string) :
  classify ("Sir" +:+ rest) = salutation
  /\ classify ("Madam" +:+ rest) = salutation
  /\ classify ("Subject:" +:+ rest) = subject
  /\ classify ("Regards" +:+ rest) = closing.
Proof.
  rewrite !PromptFacts.append_cons, !PromptFacts.append_nil_l.
  unfold classify, process_line. repeat split.
  - rewrite (strip_cons_nonspace "S" _ eq_refl).
    rewrite (rstrip_nonspace "i" _ eq_refl), (rstrip_nonspace "r" _ eq_refl).
    destruct (Py.rstrip rest); reflexivity.
  - rewrite strip_five by reflexivity.
    destruct (Py.rstrip rest); reflexivity.
  - rewrite strip_five by reflexivity.
    rewrite (rstrip_nonspace "c" _ eq_refl), (rstrip_nonspace "t" _ eq_refl),
      (rstrip_nonspace ":" _ eq_refl).
    destruct (Py.rstrip rest); reflexivity.
  - rewrite strip_five by reflexivity.
    rewrite (rstrip_nonspace "d" _ eq_refl), (rstrip_nonspace "s" _ eq_refl).
    destruct (Py.rstrip rest); reflexivity.
Qed.

End CaseFacts.

(** ** More on the prompt builders *)

Module PromptMore.
Import Params Chat AddressSpec PromptSpec.

Lemma str_items_date (parts : list Value) (d : Date) :
  In (VDate d) parts -> Main.str_items parts = Raise TypeError.
Proof.
  induction parts as [|[s|d'] parts IH]; [intros []| |reflexivity].
  intros [H|H]; [discriminate|]. cbn [Main.str_items].
  rewrite (IH H). reflexivity.
Qed.

Lemma append_if_keeps (params : gmap string Value) (k : string)
    (parts : list Value) (v : Value) :
  In v parts -> In v (Main.append_if params k parts).
Proof.
  intros H. unfold Main.append_if.
  destruct (params !! k) as [w|]; [|exact H].
  destruct (truthy w); [|exact H]. apply in_or_app. left. exact H.
Qed.

Lemma append_if_date (params : gmap string Value) (k : string)
    (parts : list Value) :
  text_field params k = false ->
  exists d, In (VDate d) (Main.append_if params k parts).
Proof.
  unfold text_field, Main.append_if.
  destruct (params !! k) as [[s|d]|]; try discriminate. intros _.
  exists d. cbn [truthy]. apply in_or_app. right. left. reflexivity.
Qed.

Lemma add_city_date (params : gmap string Value) :
  text_field params "city" = false ->
  Main.add_city params "" = Raise TypeError.
Proof.
  unfold text_field, Main.add_city.
  destruct (params !! "city") as [[s|d]|]; try discriminate. reflexivity.
Qed.

(** A date object in one of the joined address fields makes the address, and
    so the prompt, fail with a [TypeError]. *)
Lemma recipient_address_date (params : gmap string Value) :
  address_is_text params = false ->
  Main.recipient_address params = Raise TypeError.
Proof.
  intros H. unfold Main.recipient_address.
  destruct (text_field params "city") eqn:Tcity;
    [|rewrite (add_city_date params Tcity); reflexivity].
  rewrite (PromptFacts.add_city_text params Tcity), PromptFacts.bind_ok.
  cbv zeta.
  assert (Hd : exists d,
             In (VDate d)
               (Main.append_if params "address_line3"
                  (Main.append_if params "address_line2"
                     (Main.append_if params "address_line1"
                        (Main.append_if params "company_name" []))))).
  { unfold address_is_text, text_keys in H. cbn [forallb] in H.
    rewrite Tcity in H.
    destruct (text_field params "company_name") eqn:Tc.
    - destruct (text_field params "address_line1") eqn:T1.
      + destruct (text_field params "address_line2") eqn:T2.
        * destruct (text_field params "address_line3") eqn:T3;
            [discriminate|].
          apply append_if_date. exact T3.
        * destruct (append_if_date params "address_line2"
                      (Main.append_if params "address_line1"
                         (Main.append_if params "company_name" [])) T2)
            as [d Hd].
          exists d. apply append_if_keeps. exact Hd.
      + destruct (append_if_date params "address_line1"
                    (Main.append_if params "company_name" []) T1) as [d Hd].
        exists d. do 2 apply append_if_keeps. exact Hd.
    - destruct (append_if_date params "company_name" [] Tc) as [d Hd].
      exists d. do 3 apply append_if_keeps. exact Hd. }
  destruct Hd as [d Hd].
  destruct (Py.truthy (Main.add_pincode params (segment params "city"))).
  - rewrite (str_items_date _ d); [reflexivity|].
    apply in_or_app. left. exact Hd.
  - rewrite (str_items_date _ d Hd). reflexivity.
Qed.

(** When a joined address field (company name, an address line or the city)
    holds a date object, the prompt builder of [src/main.py] raises a
    [TypeError], and [generate_loa] lets it out before anything is sent or
    stored. *)
Theorem date_in_address_raises (env : Env) (params : gmap string Value)
    (self : LOAGenerator) :
  address_is_text params = false ->
  Main._construct_loa_prompt env params = Raise TypeError
  /\ Main.generate_loa env params self = mkStep (Raised TypeError) self [].
Proof.
  intros H.
  assert (Hp : Main._construct_loa_prompt env params = Raise TypeError).
  { unfold Main._construct_loa_prompt.
    rewrite (recipient_address_date params H). reflexivity. }
  split; [exact Hp|]. unfold Main.generate_loa. rewrite Hp. reflexivity.
Qed.

Lemma date_in_address_raises_witness :
  address_is_text dated_company = false
  /\ outcome (Main.generate_loa (Samples.answering "a letter") dated_company init)
     = Raised TypeError.
Proof.
  split; [vm_compute; reflexivity|].
  rewrite (proj2 (date_in_address_raises (Samples.answering "a letter")
                    dated_company init eq_refl)).
  reflexivity.
Defined.

(** *** Keys the builders do not read *)

Section OtherKey.
Variables (params : gmap string Value) (k : string) (v : Value).

Lemma lookup_other (key : string) :
  k <> key -> <[k:=v]> params !! key = params !! key.
Proof. intros H. apply lookup_insert_ne. exact H. Qed.

Lemma get_default_other (key default : string) :
  k <> key ->
  get_default (<[k:=v]> params) key default = get_default params key default.
Proof. intros H. unfold get_default. rewrite (lookup_other key H). reflexivity. Qed.

Lemma get_truthy_other (key : string) :
  k <> key -> get_truthy (<[k:=v]> params) key = get_truthy params key.
Proof. intros H. unfold get_truthy. rewrite (lookup_other key H). reflexivity. Qed.

Lemma subscript_other (key : string) :
  k <> key -> subscript (<[k:=v]> params) key = subscript params key.
Proof. intros H. unfold subscript. rewrite (lookup_other key H). reflexivity. Qed.

Lemma section_if_other (key : string) (f : Value -> string) :
  k <> key -> section_if (<[k:=v]> params) key f = section_if params key f.
Proof. intros H. unfold section_if. rewrite (lookup_other key H). reflexivity. Qed.

Lemma append_if_other (key : string) (parts : list Value) :
  k <> key ->
  Main.append_if (<[k:=v]> params) key parts = Main.append_if params key parts.
Proof. intros H. unfold Main.append_if. rewrite (lookup_other key H). reflexivity. Qed.
End OtherKey.

Lemma recipient_address_other (params : gmap string Value) (k : string)
    (v : Value) :
  ~ In k ["company_name"; "address_line1"; "address_line2"; "address_line3";
          "city"; "pincode"] ->
  Main.recipient_address (<[k:=v]> params) = Main.recipient_address params.
Proof.
  intros H. unfold Main.recipient_address, Main.add_city, Main.add_pincode.
  assert (k <> "company_name" /\ k <> "address_line1" /\ k <> "address_line2"
          /\ k <> "address_line3" /\ k <> "city" /\ k <> "pincode")
    as (H1 & H2 & H3 & H4 & H5 & H6)
    by (repeat split; intros E; apply H; rewrite E; cbn [In];
        repeat first [left; reflexivity | right]).
  rewrite !append_if_other, section_if_other, (lookup_other _ _ _ "city")
    by assumption.
  reflexivity.
Qed.

Lemma header_other (env : Env) (params : gmap string Value) (k : string)
    (v : Value) (recipient : string) :
  k <> "reference_number" -> k <> "date" ->
  Main.header env (<[k:=v]> params) recipient = Main.header env params recipient.
Proof.
  intros H1 H2. unfold Main.header, Main.reference_number, Main.date_str.
  rewrite get_default_other, (lookup_other _ _ _ "date") by assumption.
  reflexivity.
Qed.

Lemma contact_other (params : gmap string Value) (k : string) (v : Value) :
  k <> "contact_person" -> k <> "contact_email" -> k <> "contact_phone" ->
  Main.contact (<[k:=v]> params) = Main.contact params.
Proof.
  intros. unfold Main.contact. rewrite !section_if_other by assumption.
  reflexivity.
Qed.

Lemma scenario_other (params : gmap string Value) (k : string) (v : Value) :
  k <> "scenario" -> k <> "scenario_description" -> k <> "location" ->
  k <> "duration" ->
  Main.scenario (<[k:=v]> params) = Main.scenario params.
Proof.
  intros. unfold Main.scenario. rewrite !get_default_other by assumption.
  reflexivity.
Qed.

Lemma specifics_other (params : gmap string Value) (k : string) (v : Value) :
  k <> "size" -> k <> "payment_type" -> k <> "payment_amount" ->
  k <> "payment_unit" -> k <> "annual_increase" ->
  Main.specifics (<[k:=v]> params) = Main.specifics params.
Proof.
  intros. unfold Main.specifics.
  rewrite !section_if_other, !get_truthy_other, !subscript_other,
    !get_default_other by assumption.
  reflexivity.
Qed.

Lemma tail_other (params : gmap string Value) (k : string) (v : Value) :
  k <> "additional_terms" -> k <> "signatory_name" ->
  k <> "signatory_position" -> k <> "organization" ->
  k <> "special_requirements" ->
  Main.additional_terms (<[k:=v]> params) = Main.additional_terms params
  /\ Main.signatory (<[k:=v]> params) = Main.signatory params
  /\ Main.special_requirements (<[k:=v]> params)
     = Main.special_requirements params.
Proof.
  intros. unfold Main.additional_terms, Main.signatory, Main.special_requirements.
  rewrite !section_if_other, !get_default_other by assumption.
  repeat split.
Qed.

Ltac not_listed H :=
  let E := fresh in
  intros E; apply H; rewrite E; cbn [In main_keys app_keys];
  repeat first [left; reflexivity | right].

(** The builders read their own keys and nothing else: setting any other key
    of the dictionary changes neither prompt.  So the fields of one variant
    (address, to_whom, ...) mean nothing to the builder of the other. *)
Theorem prompts_ignore_other_keys (env : Env) (params : gmap string Value)
    (k : string) (v : Value) :
  (~ In k main_keys ->
   Main._construct_loa_prompt env (<[k:=v]> params)
   = Main._construct_loa_prompt env params)
  /\ (~ In k app_keys ->
      App._construct_loa_prompt env (<[k:=v]> params)
      = App._construct_loa_prompt env params).
Proof.
  split; intros H.
  - unfold Main._construct_loa_prompt.
    rewrite recipient_address_other
      by (intros [E|[E|[E|[E|[E|[E|[]]]]]]]; apply H; rewrite <- E;
          cbn [In main_keys]; repeat first [left; reflexivity | right]).
    destruct (tail_other params k v) as (Ha & Hs & Hr); try not_listed H.
    rewrite Ha, Hs, Hr.
    rewrite contact_other, scenario_other, specifics_other by not_listed H.
    destruct (Main.recipient_address params) as [recipient|e]; [|reflexivity].
    cbn [bind]. rewrite header_other by not_listed H. reflexivity.
  - unfold App._construct_loa_prompt.
    rewrite !get_default_other by not_listed H. reflexivity.
Qed.

Lemma prompts_ignore_other_keys_witness :
  Main._construct_loa_prompt (Samples.answering "a letter")
    (<["to_whom" := VStr "The Manager"]> sample_address)
  = Main._construct_loa_prompt (Samples.answering "a letter") sample_address.
Proof.
  apply (proj1 (prompts_ignore_other_keys (Samples.answering "a letter")
                  sample_address "to_whom" (VStr "The Manager"))).
  cbn [In main_keys]. intros H.
  repeat (destruct H as [H|H]; [discriminate H|]). exact H.
Defined.

(** The payment block is written only when both the payment type and the
    payment amount are given: without one of them, the annual increase and
    the payment unit never reach the prompt, whatever they are set to. *)
Theorem payment_needs_type_and_amount (env : Env)
    (params : gmap string Value) (v : Value) :
  get_truthy params "payment_type" && get_truthy params "payment_amount"
  = false ->
  Main._construct_loa_prompt env (<["annual_increase":=v]> params)
  = Main._construct_loa_prompt env params
  /\ Main._construct_loa_prompt env (<["payment_unit":=v]> params)
     = Main._construct_loa_prompt env params.
Proof.
  intros H.
  assert (Hs : forall k, k = "annual_increase" \/ k = "payment_unit" ->
                Main.specifics (<[k:=v]> params) = Main.specifics params).
  { intros k Hk. unfold Main.specifics.
    assert (k <> "size" /\ k <> "payment_type" /\ k <> "payment_amount")
      as (H1 & H2 & H3) by (destruct Hk as [-> | ->]; repeat split; discriminate).
    rewrite section_if_other, !get_truthy_other by assumption.
    rewrite H. reflexivity. }
  split.
  - unfold Main._construct_loa_prompt.
    rewrite recipient_address_other
      by (intros [E|[E|[E|[E|[E|[E|[]]]]]]]; discriminate E).
    destruct (tail_other params "annual_increase" v) as (Ha & Hg & Hr);
      try discriminate.
    rewrite Ha, Hg, Hr, contact_other, scenario_other by discriminate.
    rewrite (Hs _ (or_introl eq_refl)).
    destruct (Main.recipient_address params) as [recipient|e]; [|reflexivity].
    cbn [bind]. rewrite header_other by discriminate. reflexivity.
  - unfold Main._construct_loa_prompt.
    rewrite recipient_address_other
      by (intros [E|[E|[E|[E|[E|[E|[]]]]]]]; discriminate E).
    destruct (tail_other params "payment_unit" v) as (Ha & Hg & Hr);
      try discriminate.
    rewrite Ha, Hg, Hr, contact_other, scenario_other by discriminate.
    rewrite (Hs _ (or_intror eq_refl)).
    destruct (Main.recipient_address params) as [recipient|e]; [|reflexivity].
    cbn [bind]. rewrite header_other by discriminate. reflexivity.
Qed.

Lemma payment_needs_type_and_amount_witness :
  Main._construct_loa_prompt (Samples.answering "a letter")
    (<["annual_increase" := VStr "5"]> sample_address)
  = Main._construct_loa_prompt (Samples.answering "a letter") sample_address.
Proof.
  apply (proj1 (payment_needs_type_and_amount (Samples.answering "a letter")
                  sample_address (VStr "5") eq_refl)).
Defined.

(** With a reference number in the dictionary and a date that is not
    empty, the prompt of [src/main.py] is the same on every day and with every
    endpoint: the clock is read for the two defaults only. *)
Theorem stamped_prompt_ignores_clock (env1 env2 : Env)
    (params : gmap string Value) :
  params !! "reference_number" <> None ->
  get_truthy params "date" = true ->
  Main._construct_loa_prompt env1 params = Main._construct_loa_prompt env2 params.
Proof.
  intros Hr Hd. unfold Main._construct_loa_prompt.
  destruct (Main.recipient_address params) as [recipient|e]; [|reflexivity].
  cbn [bind]. do 2 f_equal.
  unfold Main.header, Main.reference_number, get_default, Main.date_str.
  unfold get_truthy in Hd.
  destruct (params !! "reference_number") as [r|]; [|congruence].
  destruct (params !! "date") as [[s|d]|]; [|reflexivity|discriminate].
  cbn [truthy] in Hd. rewrite Hd. reflexivity.
Qed.

Lemma stamped_prompt_ignores_clock_witness :
  Main._construct_loa_prompt
    (mkEnv (fun _ => Failure "down") (mkDate 2024 1 31)) stamped
  = Main._construct_loa_prompt
      (mkEnv (fun _ => Completion "a letter") (mkDate 2026 11 4)) stamped.
Proof.
  apply stamped_prompt_ignores_clock;
    [vm_compute; discriminate|vm_compute; reflexivity].
Defined.

Lemma header_date (env : Env) (params : gmap string Value)
    (recipient rest : string) :
  occurs_in
    (ind8 +:+ "Date: " +:+ Main.date_str env params +:+ Py.LF)
    (Main.header env params recipient +:+ rest).
Proof.
  unfold occurs_in, Main.header, block. cbn [foldr].
  eexists (Py.LF +:+ ind8
           +:+ "Generate a Letter of Authorization (LOA) with the following details:"
           +:+ Py.LF +:+ ind8 +:+ "" +:+ Py.LF
           +:+ ind8 +:+ "Reference Number: " +:+ Main.reference_number env params
           +:+ Py.LF), _.
  rewrite !PromptFacts.append_assoc. reflexivity.
Qed.

(** The date line of the prompt of [src/main.py]: a date object of the year
    1000 or later is written day.month.year, the year on its four digits; a
    text that is not empty is copied as it is, whatever it says; with no
    date, or an empty one, the line carries today's date. *)
Theorem date_line (env : Env) (params : gmap string Value) :
  address_is_text params = true ->
  exists prompt,
    Main._construct_loa_prompt env params = Ok prompt
    /\ (forall d, params !! "date" = Some (VDate d) -> 1000 <= year d ->
        occurs_in
          (ind8 +:+ "Date: " +:+ zfill 2 (decimal (day d)) +:+ "."
           +:+ zfill 2 (decimal (month d)) +:+ "."
           +:+ zfill 4 (decimal (year d)) +:+ Py.LF) prompt)
    /\ (forall s, params !! "date" = Some (VStr s) -> s <> "" ->
        occurs_in (ind8 +:+ "Date: " +:+ s +:+ Py.LF) prompt)
    /\ (get_truthy params "date" = false ->
        occurs_in
          (ind8 +:+ "Date: " +:+ zfill 2 (decimal (day (today env))) +:+ "."
           +:+ zfill 2 (decimal (month (today env))) +:+ "."
           +:+ zfill 4 (decimal (year (today env))) +:+ Py.LF) prompt).
Proof.
  intros H. eexists. split; [exact (PromptFacts.prompt_text env params H)|].
  pose proof (header_date env params
                (Py.join Py.LF (populated (segments params)))
                (Main.contact params +:+ Main.scenario params
                 +:+ Main.specifics params +:+ Main.additional_terms params
                 +:+ Main.signatory params
                 +:+ Main.special_requirements params
                 +:+ Main.style_guidance)) as Hd.
  unfold Main.date_str, get_truthy in *. repeat split.
  - intros d E _. rewrite E in Hd. unfold strftime_dmY in Hd.
    rewrite !PromptFacts.append_assoc in Hd. exact Hd.
  - intros s E Hs. rewrite E in Hd. destruct s; [congruence|exact Hd].
  - intros E. destruct (params !! "date") as [[s|d]|].
    + cbn [truthy] in E. rewrite E in Hd. unfold strftime_dmY in Hd.
      rewrite !PromptFacts.append_assoc in Hd. exact Hd.
    + discriminate.
    + unfold strftime_dmY in Hd.
      rewrite !PromptFacts.append_assoc in Hd. exact Hd.
Qed.

Lemma date_line_witness :
  exists prompt,
    Main._construct_loa_prompt (Samples.answering "a letter") stamped = Ok prompt
    /\ occurs_in (ind8 +:+ "Date: next Monday" +:+ Py.LF) prompt.
Proof.
  destruct (date_line (Samples.answering "a letter") stamped eq_refl)
    as [prompt [Hp [_ [Hs _]]]].
  exists prompt. split; [exact Hp|].
  apply (Hs "next Monday"); [reflexivity|discriminate].
Defined.

End PromptMore.

(** ** More on the letter session *)

Module SessionMore.
Import Params Chat Samples TranscriptFacts SessionSpec.

Lemma last_response_app (a b : list Message) :
  last_response (a ++ b)
  = match last_response b with
    | Some text => Some text
    | None => last_response a
    end.
Proof.
  induction a as [|m a IH]; cbn [app last_response].
  - destruct (last_response b); reflexivity.
  - rewrite IH. destruct (last_response b); reflexivity.
Qed.

(** One call keeps the current letter equal to the last response Turn. *)
Lemma app_step_last_response (c : Call) (self : LOAGenerator) :
  current_loa self = last_response (conversation_history self) ->
  current_loa (after (App.step c self))
  = last_response (conversation_history (after (App.step c self))).
Proof.
  intros H. destruct c as [env params|env q]; cbn [App.step].
  - destruct (AppFacts.app_generate_loa_cases env params self)
      as [[e [_ ->]]|[t [_ ->]]]; [exact H|reflexivity].
  - destruct (AppFacts.app_edit_loa_cases env q self)
      as [[_ ->]|[[_ [e [_ ->]]]|[_ [t [_ ->]]]]];
      cbn [after conversation_history current_loa App.with_edit].
    + exact H.
    + rewrite last_response_app. exact H.
    + rewrite last_response_app. reflexivity.
Qed.

Lemma main_step_last_response (c : Call) (self : LOAGenerator) :
  current_loa self = last_response (conversation_history self) ->
  current_loa (after (Main.step c self))
  = last_response (conversation_history (after (Main.step c self))).
Proof.
  intros H. destruct c as [env params|env q]; cbn [Main.step].
  - destruct (MainFacts.main_generate_loa_cases env params self)
      as [[e [_ ->]]|[[p [e [_ [_ ->]]]]|[p [t [_ [_ ->]]]]]];
      [exact H|exact H|reflexivity].
  - destruct (MainFacts.main_edit_loa_cases env q self)
      as [[_ ->]|[[_ [e [_ ->]]]|[_ [t [_ ->]]]]];
      cbn [after conversation_history current_loa Main.with_edit].
    + exact H.
    + rewrite last_response_app. exact H.
    + rewrite last_response_app. reflexivity.
Qed.

(** Whatever the calls and whatever the endpoint does, the current letter is
    the text of the last response Turn of the transcript, and there is no
    current letter exactly when the transcript holds no response; so in both
    files. *)
Theorem current_letter_is_last_response (calls : list Call) :
  current_loa (App.run calls init)
  = last_response (conversation_history (App.run calls init))
  /\ current_loa (Main.run calls init)
     = last_response (conversation_history (Main.run calls init)).
Proof.
  split.
  - assert (G : forall self,
               current_loa self = last_response (conversation_history self) ->
               current_loa (App.run calls self)
               = last_response (conversation_history (App.run calls self))).
    { induction calls as [|c calls IH]; intros self H; [exact H|].
      cbn [App.run]. apply IH. apply app_step_last_response. exact H. }
    apply G. reflexivity.
  - assert (G : forall self,
               current_loa self = last_response (conversation_history self) ->
               current_loa (Main.run calls self)
               = last_response (conversation_history (Main.run calls self))).
    { induction calls as [|c calls IH]; intros self H; [exact H|].
      cbn [Main.run]. apply IH. apply main_step_last_response. exact H. }
    apply G. reflexivity.
Qed.

(** A generation that is not answered (the endpoint fails, or the prompt
    cannot be built) leaves the generator as it was: transcript and current
    letter are untouched.  A failed revision does not: see the claim on it. *)
Theorem unanswered_generate_changes_nothing (env : Env)
    (params : gmap string Value) (self : LOAGenerator) :
  (answered env (App.generate_loa env params self) = None ->
   after (App.generate_loa env params self) = self)
  /\ (answered env (Main.generate_loa env params self) = None ->
      after (Main.generate_loa env params self) = self).
Proof.
  split; intros H.
  - destruct (AppFacts.app_generate_loa_cases env params self)
      as [[e [_ ->]]|[t [Hc Hst]]]; [reflexivity|].
    rewrite Hst in H. unfold answered in H. cbn [sent] in H.
    rewrite Hc in H. discriminate.
  - destruct (MainFacts.main_generate_loa_cases env params self)
      as [[e [_ ->]]|[[p [e [_ [_ ->]]]]|[p [t [_ [Hc Hst]]]]]];
      [reflexivity|reflexivity|].
    rewrite Hst in H. unfold answered in H. cbn [sent] in H.
    rewrite Hc in H. discriminate.
Qed.

Lemma unanswered_generate_changes_nothing_witness :
  after (App.generate_loa (failing "quota") no_params
           (App.run generate_edit init))
  = App.run generate_edit init.
Proof.
  apply (proj1 (unanswered_generate_changes_nothing (failing "quota") no_params
                  (App.run generate_edit init))).
  reflexivity.
Defined.

(** The request of a generation: the system directive, the new prompt, and
    after it the whole transcript of before, which the generation then
    replaces by its own pair. *)
Theorem generate_sends_transcript (env : Env) (params : gmap string Value)
    (self : LOAGenerator) (text : string) :
  answered env (App.generate_loa env params self) = Some text ->
  sent (App.generate_loa env params self)
  = [ mkChatRequest (model self)
        (mkMessage system _create_system_prompt
         :: mkMessage user (App._construct_loa_prompt env params)
         :: conversation_history self)
        2 2500 ]
  /\ conversation_history (after (App.generate_loa env params self))
     = [ mkMessage user (App._construct_loa_prompt env params);
         mkMessage assistant text ]
  /\ current_loa (after (App.generate_loa env params self)) = Some text.
Proof.
  intros H.
  assert (Hm : App.generate_messages self (App._construct_loa_prompt env params)
               = mkMessage system _create_system_prompt
                 :: mkMessage user (App._construct_loa_prompt env params)
                 :: conversation_history self).
  { unfold App.generate_messages, extend_if_any.
    destruct (conversation_history self); reflexivity. }
  destruct (AppFacts.app_generate_loa_cases env params self)
    as [[e [Hc Hst]]|[t [Hc Hst]]]; rewrite Hst in *;
    unfold answered in H; cbn [sent] in H; rewrite Hc in H;
    [discriminate|].
  injection H as ->. cbn [sent after conversation_history current_loa].
  unfold request_of. rewrite Hm. repeat split.
Qed.

Lemma generate_sends_transcript_witness :
  List.length
    (conversation_history
       (after (App.generate_loa (answering "third letter") no_params
                 (App.run generate_edit init)))) = 2.
Proof.
  destruct (generate_sends_transcript (answering "third letter") no_params
              (App.run generate_edit init) "third letter" eq_refl)
    as [_ [H _]].
  rewrite H. reflexivity.
Defined.

(** A completion that is the empty string is stored like any other, but the
    generator then counts as having no letter: the next revision returns the
    fixed message and sends nothing, although the transcript is not empty. *)
Theorem empty_completion_is_no_letter (env env' : Env)
    (params : gmap string Value) (edit_request : string) (self : LOAGenerator) :
  answered env (App.generate_loa env params self) = Some "" ->
  conversation_history (after (App.generate_loa env params self))
  = [ mkMessage user (App._construct_loa_prompt env params);
      mkMessage assistant "" ]
  /\ App.edit_loa env' edit_request (after (App.generate_loa env params self))
     = mkStep (Returned no_loa_message)
         (after (App.generate_loa env params self)) [].
Proof.
  intros H.
  destruct (AppFacts.app_generate_loa_cases env params self)
    as [[e [Hc Hst]]|[t [Hc Hst]]]; rewrite Hst in *;
    unfold answered in H; cbn [sent] in H; rewrite Hc in H;
    [discriminate|].
  injection H as ->. cbn [after conversation_history].
  split; reflexivity.
Qed.

Lemma empty_completion_is_no_letter_witness :
  outcome (App.edit_loa (answering "a letter") "shorter"
             (after (App.generate_loa (answering "") no_params init)))
  = Returned no_loa_message.
Proof.
  rewrite (proj2 (empty_completion_is_no_letter (answering "")
                    (answering "a letter") no_params "shorter" init eq_refl)).
  reflexivity.
Defined.

(** [edit_loa] is the same in both files up to what a failure looks like to
    the caller: the generator afterwards and the requests sent are the same,
    and so is the result whenever the endpoint did not fail. *)
Theorem edit_loa_variants_agree (env : Env) (edit_request : string)
    (self : LOAGenerator) :
  after (App.edit_loa env edit_request self)
  = after (Main.edit_loa env edit_request self)
  /\ sent (App.edit_loa env edit_request self)
     = sent (Main.edit_loa env edit_request self)
  /\ (failed env (App.edit_loa env edit_request self) = None ->
      App.edit_loa env edit_request self = Main.edit_loa env edit_request self).
Proof.
  unfold App.edit_loa, Main.edit_loa.
  destruct (no_current_loa self); [repeat split|].
  change (Main.with_edit self edit_request) with (App.with_edit self edit_request).
  change (Main.edit_messages self edit_request)
    with (App.edit_messages self edit_request).
  destruct (create env _) as [t|e] eqn:Hc; repeat split.
  unfold failed. cbn [sent]. rewrite Hc. discriminate.
Qed.

Lemma edit_loa_variants_agree_witness :
  App.edit_loa (answering "second letter") "shorter"
    (App.run [Generate (answering "first letter") no_params] init)
  = Main.edit_loa (answering "second letter") "shorter"
      (App.run [Generate (answering "first letter") no_params] init).
Proof.
  apply (proj2 (proj2 (edit_loa_variants_agree (answering "second letter")
                         "shorter"
                         (App.run [Generate (answering "first letter") no_params]
                            init)))).
  reflexivity.
Defined.

(** The request of a failed revision stays in the transcript, so the next
    revision sends it again, right before its own: the endpoint is asked for
    both edits at once. *)
Theorem failed_edit_is_sent_again (env1 env2 : Env) (q1 q2 : string)
    (self : LOAGenerator) (str_e : string) :
  failed env1 (App.edit_loa env1 q1 self) = Some str_e ->
  sent (App.edit_loa env2 q2 (after (App.edit_loa env1 q1 self)))
  = [ mkChatRequest (model self)
        (mkMessage system _create_system_prompt
         :: conversation_history self
            ++ [ mkMessage user (edit_content q1);
                 mkMessage user (edit_content q2) ])
        2 2500 ].
Proof.
  intros H.
  destruct (AppFacts.app_edit_loa_cases env1 q1 self)
    as [[_ Hst]|[[Hn [e [Hc Hst]]]|[_ [t [Hc Hst]]]]]; rewrite Hst in *;
    unfold failed in H; cbn [sent] in H; try rewrite Hc in H;
    try discriminate.
  cbn [after]. unfold App.edit_loa.
  assert (Hn' : no_current_loa (App.with_edit self q1) = false) by exact Hn.
  rewrite Hn'. unfold request_of, App.edit_messages.
  cbn [App.with_edit conversation_history model app].
  destruct (create env2 _); cbn [sent]; rewrite <- app_assoc; reflexivity.
Qed.

Lemma failed_edit_is_sent_again_witness :
  List.length
    (sent (App.edit_loa (answering "second letter") "no logo"
             (after (App.edit_loa (failing "timeout") "shorter"
                       (App.run [Generate (answering "first letter") no_params]
                          init))))) = 1.
Proof.
  rewrite (failed_edit_is_sent_again (failing "timeout")
             (answering "second letter") "shorter" "no logo"
             (App.run [Generate (answering "first letter") no_params] init)
             "timeout" eq_refl).
  reflexivity.
Defined.

Lemma app_step_model (c : Call) (self : LOAGenerator) :
  model (after (App.step c self)) = model self.
Proof.
  destruct c as [env params|env q]; cbn [App.step].
  - destruct (AppFacts.app_generate_loa_cases env params self)
      as [[e [_ ->]]|[t [_ ->]]]; reflexivity.
  - destruct (AppFacts.app_edit_loa_cases env q self)
      as [[_ ->]|[[_ [e [_ ->]]]|[_ [t [_ ->]]]]]; reflexivity.
Qed.

Lemma app_step_sent (c : Call) (self : LOAGenerator) :
  List.length (sent (App.step c self)) <= 1
  /\ (is_edit c = true -> no_current_loa self = true ->
      sent (App.step c self) = [])
  /\ Forall (fun r => req_model r = model self
                      /\ req_temperature_tenths r = 2
                      /\ req_max_tokens r = 2500
                      /\ List.hd_error (req_messages r)
                         = Some (mkMessage system _create_system_prompt))
       (sent (App.step c self)).
Proof.
  destruct c as [env params|env q]; cbn [App.step is_edit].
  - assert (Hm : App.generate_messages self (App._construct_loa_prompt env params)
                 = mkMessage system _create_system_prompt
                   :: mkMessage user (App._construct_loa_prompt env params)
                   :: conversation_history self).
    { unfold App.generate_messages, extend_if_any.
      destruct (conversation_history self); reflexivity. }
    destruct (AppFacts.app_generate_loa_cases env params self)
      as [[e [_ ->]]|[t [_ ->]]]; cbn [sent List.length];
      (split; [lia|split; [discriminate|]]);
      constructor; [|constructor| |constructor];
      unfold request_of; rewrite Hm; repeat split.
  - destruct (AppFacts.app_edit_loa_cases env q self)
      as [[Hn ->]|[[Hn [e [_ ->]]]|[Hn [t [_ ->]]]]]; cbn [sent List.length].
    + split; [lia|split; [reflexivity|constructor]].
    + split; [lia|split; [congruence|]].
      constructor; [|constructor]. repeat split.
    + split; [lia|split; [congruence|]].
      constructor; [|constructor]. repeat split.
Qed.

(** During any sequence of calls of [src/app.py] on a fresh generator, every
    call contacts the endpoint at most once (nothing is tried again), and
    every request names the model gpt-4, the temperature 0.2 and 2500 tokens
    at most, and opens with the system directive. *)
Theorem requests_are_standard (calls : list Call) :
  List.length (app_requests calls init) <= List.length calls
  /\ Forall standard_request (app_requests calls init).
Proof.
  assert (G : forall self,
             model self = "gpt-4" ->
             List.length (app_requests calls self) <= List.length calls
             /\ Forall standard_request (app_requests calls self)).
  { induction calls as [|c calls IH]; intros self Hm.
    - split; [apply Nat.le_refl|constructor].
    - cbn [app_requests List.length].
      destruct (app_step_sent c self) as [Hl [_ Hf]].
      destruct (IH (after (App.step c self))) as [IHl IHf].
      { rewrite app_step_model. exact Hm. }
      split.
      + rewrite length_app. lia.
      + apply Forall_app. split; [|exact IHf].
        eapply Forall_impl; [exact Hf|].
        intros r [H1 H2]. split; [congruence|exact H2]. }
  apply G. reflexivity.
Qed.

End SessionMore.

(** ** The exported transcript *)

Module JsonFacts.
Import Chat Json.

Lemma unescape_char (c : ascii) (rest : string) :
  unescape (escape_char c +:+ rest) = cons_char c (unescape rest).
Proof. destruct c as [[] [] [] [] [] [] [] []]; reflexivity. Qed.

Lemma unescape_escape (s tail : string) :
  unescape (escape s +:+ String DQ tail) = Some (s, tail).
Proof.
  induction s as [|c s IH]; [reflexivity|].
  cbn [escape]. rewrite PromptFacts.append_assoc, unescape_char, IH.
  reflexivity.
Qed.

Lemma parse_string_encode (s tail : string) :
  parse_string (encode_string s +:+ tail) = Some (s, tail).
Proof.
  unfold encode_string. rewrite PromptFacts.append_cons.
  cbn [parse_string]. rewrite Ascii.eqb_refl.
  rewrite PromptFacts.append_assoc. apply unescape_escape.
Qed.

Lemma expect_app (lit s : string) : expect lit (lit +:+ s) = Some s.
Proof.
  induction lit as [|c lit IH]; [reflexivity|].
  rewrite PromptFacts.append_cons. cbn [expect].
  rewrite Ascii.eqb_refl. exact IH.
Qed.

Lemma role_of_name_role_name (r : RoleTag) : role_of_name (role_name r) = Some r.
Proof. destruct r; reflexivity. Qed.

Lemma parse_record_record (m : Message) (tail : string) :
  parse_record (record m +:+ tail) = Some (m, tail).
Proof.
  unfold record, parse_record. rewrite !PromptFacts.append_assoc.
  rewrite expect_app. cbn [mbind option_bind].
  rewrite parse_string_encode. cbn [mbind option_bind].
  rewrite role_of_name_role_name. cbn [mbind option_bind].
  rewrite expect_app. cbn [mbind option_bind].
  rewrite parse_string_encode. cbn [mbind option_bind].
  rewrite expect_app. cbn [mbind option_bind].
  destruct m; reflexivity.
Qed.

Lemma join_cons2 (sep x y : string) (l : list string) :
  Py.join sep (x :: y :: l) = x +:+ sep +:+ Py.join sep (y :: l).
Proof. reflexivity. Qed.

Lemma expect_close_separator (rest : string) :
  expect list_close (item_separator +:+ rest) = None.
Proof. reflexivity. Qed.

Lemma parse_records_join (ms : list Message) :
  forall m fuel,
    List.length ms < fuel ->
    parse_records fuel
      (Py.join item_separator (map record (m :: ms)) +:+ list_close)
    = Some (m :: ms).
Proof.
  induction ms as [|m' ms IH]; intros m fuel Hf;
    (destruct fuel as [|fuel]; [inversion Hf|]); cbn [parse_records map].
  - change (Py.join item_separator [record m]) with (record m).
    rewrite parse_record_record. reflexivity.
  - rewrite join_cons2, !PromptFacts.append_assoc, parse_record_record.
    cbn [mbind option_bind]. rewrite expect_close_separator, expect_app.
    cbn [mbind option_bind].
    change (record m' :: map record ms) with (map record (m' :: ms)).
    rewrite IH by (cbn [List.length] in Hf; lia). reflexivity.
Qed.

Lemma length_append (a b : string) :
  String.length (a +:+ b) = String.length a + String.length b.
Proof.
  induction a as [|c a IH]; [reflexivity|].
  rewrite PromptFacts.append_cons. cbn [String.length]. rewrite IH.
  reflexivity.
Qed.

Lemma record_length (m : Message) : 1 <= String.length (record m).
Proof.
  unfold record, record_open. rewrite !PromptFacts.append_cons.
  cbn [String.length]. lia.
Qed.

Lemma join_length (ms : list Message) :
  forall m,
    List.length ms
    < String.length (Py.join item_separator (map record (m :: ms))).
Proof.
  induction ms as [|m' ms IH]; intros m; cbn [map].
  - change (Py.join item_separator [record m]) with (record m).
    pose proof (record_length m). cbn [List.length]. lia.
  - rewrite join_cons2, !length_append.
    change (record m' :: map record ms) with (map record (m' :: ms)).
    pose proof (IH m'). pose proof (record_length m). cbn [List.length]. lia.
Qed.

(** Reading back what [json.dump] wrote gives the transcript again: every
    Turn, in order, with its role and its text, whatever characters the text
    holds.  So two transcripts with the same export are the same. *)
Theorem loads_dumps (h : list Message) :
  loads (dumps h) = Some h
  /\ (forall h', dumps h' = dumps h -> h' = h).
Proof.
  assert (G : forall h, loads (dumps h) = Some h).
  { clear h. intros [|m ms]; [reflexivity|].
    unfold loads, dumps.
    assert (E : String.eqb
                  (list_open
                   +:+ Py.join item_separator (map record (m :: ms))
                   +:+ list_close) "[]" = false) by reflexivity.
    rewrite E. rewrite expect_app. cbn [mbind option_bind].
    apply parse_records_join.
    rewrite !length_append. pose proof (join_length ms m). lia. }
  split; [apply G|].
  intros h' E. pose proof (G h') as H'. rewrite E, G in H'.
  injection H' as ->. reflexivity.
Qed.

End JsonFacts.

(** ** Saving and exporting *)

Module FilesFacts.
Import Params Chat Samples SessionSpec Json Files.

Lemma active_letter (self : LOAGenerator) :
  no_current_loa self = false -> current_loa self = Some (letter_text self).
Proof.
  unfold no_current_loa, letter_text.
  destruct (current_loa self); [reflexivity|discriminate].
Qed.

(** After any calls on a fresh generator of [src/main.py], [save_loa] either
    finds no letter, prints the fixed message and leaves every file alone,
    or, the file being writable, it leaves there the text of the last
    response Turn of the transcript, touches no other file and says so. *)
Theorem save_loa_writes_last_response (calls : list Call) (filename : string)
    (w : World) :
  writable w filename = true ->
  let self := Main.run calls init in
  (no_current_loa self = true ->
   save_loa filename self w = (Done, print no_loa_message w)
   /\ files (snd (save_loa filename self w)) = files w)
  /\ (no_current_loa self = false ->
      fst (save_loa filename self w) = Done
      /\ files (snd (save_loa filename self w)) !! filename
         = last_response (conversation_history self)
      /\ (forall other, other <> filename ->
          files (snd (save_loa filename self w)) !! other = files w !! other)
      /\ stdout (snd (save_loa filename self w))
         = stdout w ++ ["LOA saved to " +:+ filename]).
Proof.
  intros Hw. cbv zeta. unfold save_loa. split; intros Hn; rewrite Hn.
  - split; reflexivity.
  - rewrite Hw. cbn [fst snd print write files stdout].
    repeat split.
    + rewrite lookup_insert_eq, <- (active_letter _ Hn).
      apply (proj2 (SessionMore.current_letter_is_last_response calls)).
    + intros other Ho. apply lookup_insert_ne. congruence.
Qed.

Lemma save_loa_writes_last_response_witness :
  files
    (snd (save_loa "sample_loa.txt" (Main.run generate_fail_edit init)
            (mkWorld ∅ [] (fun _ => true)))) !! "sample_loa.txt"
  = Some "second letter".
Proof.
  rewrite (proj1 (proj2 (proj2 (save_loa_writes_last_response generate_fail_edit
             "sample_loa.txt" (mkWorld ∅ [] (fun _ => true)) eq_refl)
             eq_refl))).
  reflexivity.
Defined.

(** [export_to_json] writes nothing for an empty transcript; otherwise, the
    file being writable, what it writes reads back as the transcript, Turn
    for Turn, and no other file changes.  A file that cannot be opened stops
    both methods before anything is written or printed. *)
Theorem export_to_json_round_trip (filename : string) (self : LOAGenerator)
    (w : World) :
  (conversation_history self = [] ->
   export_to_json filename self w
   = (Done, print "No conversation history available." w))
  /\ (conversation_history self <> [] -> writable w filename = true ->
      fst (export_to_json filename self w) = Done
      /\ (files (snd (export_to_json filename self w)) !! filename ≫= loads)
         = Some (conversation_history self)
      /\ (forall other, other <> filename ->
          files (snd (export_to_json filename self w)) !! other
          = files w !! other))
  /\ (writable w filename = false ->
      (conversation_history self <> [] ->
       export_to_json filename self w = (OSError, w))
      /\ (no_current_loa self = false ->
          save_loa filename self w = (OSError, w))).
Proof.
  unfold export_to_json, save_loa. split; [|split].
  - intros ->. reflexivity.
  - intros Hh Hw. destruct (conversation_history self) as [|m ms] eqn:E;
      [congruence|].
    rewrite Hw. cbn [fst snd print write files]. repeat split.
    + rewrite lookup_insert_eq. cbn [mbind option_bind].
      apply JsonFacts.loads_dumps.
    + intros other Ho. apply lookup_insert_ne. congruence.
  - intros Hw. split.
    + intros Hh. destruct (conversation_history self); [congruence|].
      rewrite Hw. reflexivity.
    + intros ->. rewrite Hw. reflexivity.
Qed.

Lemma export_to_json_round_trip_witness :
  (files
     (snd (export_to_json "conversation_history.json"
             (Main.run generate_edit init) (mkWorld ∅ [] (fun _ => true))))
     !! "conversation_history.json" ≫= loads)
  = Some (conversation_history (Main.run generate_edit init)).
Proof.
  apply (proj1 (proj2 (export_to_json_round_trip "conversation_history.json"
                         (Main.run generate_edit init)
                         (mkWorld ∅ [] (fun _ => true)))));
    [vm_compute; discriminate|reflexivity].
Defined.

Lemma example_params_text (d : Date) :
  AddressSpec.address_is_text (example_params d) = true.
Proof. reflexivity. Qed.

(** The example script, when the endpoint answers both calls and the second
    answer is not empty: it runs to its end, prints the two letters under
    their headings and the two confirmations, leaves the revised letter in
    sample_loa.txt and, in conversation_history.json, a text that reads back
    as the four Turns. *)
Theorem main_end_to_end (env1 env2 : Env) (w : World) (text1 text2 : string) :
  answered env1 (Main.generate_loa env1 (example_params (today env1)) init)
  = Some text1 ->
  answered env2
    (Main.edit_loa env2 example_edit_request
       (after (Main.generate_loa env1 (example_params (today env1)) init)))
  = Some text2 ->
  text2 <> "" ->
  writable w "sample_loa.txt" = true ->
  writable w "conversation_history.json" = true ->
  exists prompt,
    Main._construct_loa_prompt env1 (example_params (today env1)) = Ok prompt
    /\ fst (main env1 env2 w) = Finished
    /\ files (snd (main env1 env2 w)) !! "sample_loa.txt" = Some text2
    /\ (files (snd (main env1 env2 w)) !! "conversation_history.json" ≫= loads)
       = Some [ mkMessage user prompt; mkMessage assistant text1;
                mkMessage user (edit_content example_edit_request);
                mkMessage assistant text2 ]
    /\ stdout (snd (main env1 env2 w))
       = stdout w
         ++ [ "--- Generated LOA ---"; text1;
              Py.LF +:+ "--- Edited LOA ---"; text2;
              "LOA saved to sample_loa.txt";
              "Conversation history exported to conversation_history.json" ].
Proof.
  intros H1 H2 Hne Hw1 Hw2.
  destruct (MainFacts.main_generate_answered env1 _ init text1 H1)
    as [prompt [Hp Hst1]].
  exists prompt. split; [exact Hp|].
  unfold main. cbv zeta. rewrite Hst1 in *. cbn [outcome after] in *.
  destruct (MainFacts.main_edit_answered env2 example_edit_request _ text2 H2)
    as [_ Hst2].
  rewrite Hst2. cbn [outcome after].
  unfold save_loa, no_current_loa. cbn [current_loa].
  assert (Ht : Py.truthy text2 = true) by (destruct text2; [congruence|reflexivity]).
  rewrite Ht. cbn [negb print write writable]. rewrite Hw1.
  unfold export_to_json. cbn [conversation_history app print write writable].
  rewrite Hw2. cbn [fst snd files stdout letter_text current_loa].
  unfold print, write. cbn [files stdout].
  repeat split.
  - rewrite lookup_insert_ne by discriminate. apply lookup_insert_eq.
  - rewrite lookup_insert_eq. cbn [mbind option_bind].
    apply JsonFacts.loads_dumps.
  - rewrite <- !app_assoc. reflexivity.
Qed.

Lemma main_end_to_end_witness :
  files
    (snd (main (answering "first letter") (answering "second letter")
            (mkWorld ∅ [] (fun _ => true)))) !! "sample_loa.txt"
  = Some "second letter".
Proof.
  destruct (main_end_to_end (answering "first letter")
              (answering "second letter") (mkWorld ∅ [] (fun _ => true))
              "first letter" "second letter" eq_refl eq_refl
              ltac:(discriminate) eq_refl eq_refl)
    as [prompt [_ [_ [H _]]]].
  exact H.
Defined.

(** The example script when the endpoint fails: on the first call it stops
    on the exception having printed and written nothing; on the second call
    it stops having printed the first letter only, and no file is written. *)
Theorem main_stops_on_failure (env1 env2 : Env) (w : World) :
  (forall str_e,
     failed env1 (Main.generate_loa env1 (example_params (today env1)) init)
     = Some str_e ->
     main env1 env2 w = (Stopped (ServiceError str_e), w))
  /\ (forall text1 str_e,
        answered env1 (Main.generate_loa env1 (example_params (today env1)) init)
        = Some text1 ->
        failed env2
          (Main.edit_loa env2 example_edit_request
             (after (Main.generate_loa env1 (example_params (today env1)) init)))
        = Some str_e ->
        main env1 env2 w
        = (Stopped (ServiceError str_e),
           print text1 (print "--- Generated LOA ---" w))).
Proof.
  split.
  - intros str_e H. unfold main. cbv zeta.
    destruct (MainFacts.main_generate_loa_cases env1
                (example_params (today env1)) init)
      as [[e [_ Hst]]|[[p [e [_ [Hc Hst]]]]|[p [t [_ [Hc Hst]]]]]];
      rewrite Hst in *; unfold failed in H; cbn [sent] in H;
      try rewrite Hc in H; try discriminate.
    injection H as ->. reflexivity.
  - intros text1 str_e H1 H2. unfold main. cbv zeta.
    destruct (MainFacts.main_generate_answered env1 _ init text1 H1)
      as [prompt [Hp Hst1]].
    rewrite Hst1 in *. cbn [outcome after] in *.
    destruct (MainFacts.main_edit_loa_cases env2 example_edit_request
                (mkLOAGenerator (model init)
                   [mkMessage user prompt; mkMessage assistant text1]
                   (Some text1)))
      as [[_ Hst]|[[_ [e [Hc Hst]]]|[_ [t [Hc Hst]]]]];
      rewrite Hst in *; unfold failed in H2; cbn [sent] in H2;
      try rewrite Hc in H2; try discriminate.
    injection H2 as ->. reflexivity.
Qed.

Lemma main_stops_on_failure_witness :
  main (failing "quota") (answering "second letter")
    (mkWorld ∅ [] (fun _ => true))
  = (Stopped (ServiceError "quota"), mkWorld ∅ [] (fun _ => true)).
Proof.
  apply (proj1 (main_stops_on_failure (failing "quota")
                  (answering "second letter") (mkWorld ∅ [] (fun _ => true)))).
  reflexivity.
Defined.

End FilesFacts.
